(** * Replication health checks and stale-job cleanup of paasta

    A shallow embedding of

    - [paasta_tools/check_flink_services_health.py]: the count of healthy
      Flink containers, the under-registered-taskmanagers check and the
      combination of the four sub-checks into one replication event;
    - [service_deployment_tools/cleanup_marathon_jobs.py]: the loop that
      deletes the Marathon apps that are no longer configured;
    - [paasta_tools/contrib/paasta_update_soa_memcpu.py]: the reports read
      from Splunk, their combination in [main], and the choice of
      reviewers.

    Python integers are [Z], strings are [string], dictionaries are [gmap]s,
    exceptions are values of [exn] carried by [result]. The clock is read
    through a counter: the readings of [datetime.now] are numbered in the
    order of the calls. *)

From Stdlib Require Import QArith Ascii String.
From stdpp Require Import gmap strings list pretty.

Open Scope string_scope.
Open Scope list_scope.
Open Scope Z_scope.

(** ** Python values, exceptions and built-ins *)

Module Py.

(** The exception classes the two scripts can meet. [InvalidArgument] is
    the error the specification gives to a count or a threshold out of
    range; it is no [ValueError]. *)
Inductive exn : Type :=
| ValueError (msg : string)
| KeyError (key : string)
| TypeError (msg : string)
| ZeroDivisionError
| IOError (msg : string)
| InvalidArgument.

(** The outcome of a call: a value, or a raised exception. *)
Inductive result (A : Type) : Type :=
| Ok (a : A)
| Raise (e : exn).
Arguments Ok {A} a.
Arguments Raise {A} e.

Definition bind {A B : Type} (r : result A) (k : A -> result B) : result B :=
  match r with
  | Ok a => k a
  | Raise e => Raise e
  end.

(** [raised r] tells whether the call ended with an exception. *)
Definition raised {A : Type} (r : result A) : bool :=
  match r with
  | Ok _ => false
  | Raise _ => true
  end.

(** The line feed, [\n]. *)
Definition nl : string := String "010"%char "".

(** [sep.join(parts)]. *)
Fixpoint join (sep : string) (parts : list string) : string :=
  match parts with
  | [] => ""
  | [p] => p
  | p :: rest => p +:+ sep +:+ join sep rest
  end.

(** [any(flags)]: stops at the first true flag. *)
Fixpoint any (flags : list bool) : bool :=
  match flags with
  | [] => false
  | b :: rest => if b then true else any rest
  end.

(** [d[key]] on a dictionary: a missing key raises [KeyError]. *)
Definition getitem {V : Type} (d : gmap string V) (key : string) : result V :=
  match d !! key with
  | Some v => Ok v
  | None => Raise (KeyError key)
  end.

(** [d[key]] on an attribute that is a dictionary or [None]: subscripting
    [None] raises [TypeError]. *)
Definition not_subscriptable : string := "'NoneType' object is not subscriptable".

Definition getitem_opt {V : Type} (d : option (gmap string V)) (key : string)
    : result V :=
  match d with
  | Some d => getitem d key
  | None => Raise (TypeError not_subscriptable)
  end.

(** [d.get(key, dflt)]. *)
Definition get {V : Type} (d : gmap string V) (key : string) (dflt : V) : V :=
  default dflt (d !! key).

(** [a / b], true division, taken over the rationals: a zero divisor
    raises [ZeroDivisionError]. *)
Definition truediv (a b : Q) : result Q :=
  if Qeq_bool b 0 then Raise ZeroDivisionError else Ok (a / b)%Q.

(** [a < b] on rationals. *)
Definition Qltb (a b : Q) : bool := negb (Qle_bool b a).

End Py.

Import Py.

Notation "'let*' x ':=' r 'in' k" := (bind r (fun x => k))
  (at level 10, x pattern, r at level 100, k at level 200).

(** ** [check_flink_services_health.py] *)

Module Flink.

(** [FlinkDeploymentConfig], with the attributes and methods the check
    reads: [job_id] is a property of the configuration and
    [replication_crit_percentage] is what
    [get_replication_crit_percentage()] returns. *)
Record FlinkDeploymentConfig : Type := {
  service : string;
  instance : string;
  cluster : string;
  job_id : string;
  config_dict : gmap string (gmap string Z);
  replication_crit_percentage : Z
}.

Definition get_replication_crit_percentage (c : FlinkDeploymentConfig) : Z :=
  replication_crit_percentage c.

(** [pysensu_yelp.Status]. *)
Inductive Status : Type := OK | WARNING | CRITICAL | UNKNOWN.

(** A [V1Pod], with the parts of [metadata] and [status] the check reads.
    [metadata.labels] is a dictionary, or [None] on a pod without labels.
    A [datetime] is a number of microseconds, and so is a [timedelta]. *)
Record V1Pod : Type := {
  metadata_name : string;
  metadata_labels : option (gmap string string);
  status_start_time : Z;
  status_conditions : list (string * string)
}.

(** [timedelta.total_seconds()]: the microseconds over [10**6]. *)
Definition total_seconds (d : Z) : Q := (inject_Z d / inject_Z 1000000)%Q.

(** Modelled from the spec: [paasta_tools.utils.is_under_replicated] is
    imported by the check and is not part of the sources at hand. The
    specification gives its input constraints and its computation. A
    negative count, or a threshold outside of 0..100, signals
    [InvalidArgument] and is not coerced. Otherwise the percentage
    available is [100] when nothing is expected and
    [(observed / expected) * 100] else, compared exactly, and the unit is
    under-replicated when the percentage is strictly below the critical
    threshold. The caller unpacks a pair, of which it keeps the boolean. *)
Definition is_under_replicated
    (num_available expected_count crit_threshold : Z) : result (bool * Q) :=
  if (num_available <? 0) || (expected_count <? 0)
     || (crit_threshold <? 0) || (100 <? crit_threshold)
  then Raise InvalidArgument
  else
    let* ratio :=
      if expected_count =? 0 then Ok 100%Q
      else let* q := truediv (inject_Z num_available) (inject_Z expected_count) in
           Ok (q * 100)%Q in
    Ok (Qltb ratio (inject_Z crit_threshold), ratio).

(** The text appended to the output of an unhealthy check. *)
Definition alert_text (instance_config : FlinkDeploymentConfig) : string :=
  join nl
    [ "";
      "What this alert means:";
      "";
      "  This alert means that the Flink dashboard is not reporting the expected";
      "  number of taskmanagers.";
      "";
      "Reasons this might be happening:";
      "";
      "  The service may simply be unhealthy. There also may not be enough resources";
      "  in the cluster to support the requested instance count.";
      "";
      "Things you can do:";
      "";
      "  * Fix the cause of the unhealthy service. Try running:";
      "";
      "     paasta status -s " +:+ service instance_config
        +:+ " -i " +:+ instance instance_config
        +:+ " -c " +:+ cluster instance_config +:+ " -vv";
      "";
      "" ].

(** The [output] of the [try] block of
    [check_under_registered_taskmanagers], from the values it formats. *)
Definition reported_output
    (instance_config : FlinkDeploymentConfig)
    (num_reported expected_count crit_threshold : Z) : string :=
  "Service " +:+ job_id instance_config +:+ " has "
  +:+ pretty num_reported +:+ " out of " +:+ pretty expected_count
  +:+ " expected instances "
  +:+ "of taskmanager reported by dashboard!" +:+ nl
  +:+ "(threshold: " +:+ pretty crit_threshold +:+ "%)".

(** The [output] of the [except ValueError as e] block. *)
Definition unavailable_output
    (instance_config : FlinkDeploymentConfig) (e : string) : string :=
  "Dashboard of service " +:+ job_id instance_config
  +:+ " is not available!" +:+ nl +:+ "(" +:+ e +:+ ")".

(** The body of the [try] block of [check_under_registered_taskmanagers].
    [fetched] is the outcome of [flink_tools.get_flink_jobmanager_overview]
    for the service, instance and cluster of the configuration: the
    dashboard's overview, or the exception the call raised. *)
Definition registered_taskmanagers
    (instance_config : FlinkDeploymentConfig) (expected_count : Z)
    (fetched : result (gmap string Z)) : result (bool * string) :=
  let* overview := fetched in
  let num_reported := get overview "taskmanagers" 0 in
  let crit_threshold := get_replication_crit_percentage instance_config in
  let output :=
    reported_output instance_config num_reported expected_count crit_threshold in
  let* (unhealthy, _) :=
    is_under_replicated num_reported expected_count crit_threshold in
  Ok (unhealthy, output).

(** [check_under_registered_taskmanagers]: [unhealthy] starts as [True];
    a [ValueError] of the [try] block is caught and leaves it so, any other
    exception escapes. The function is not pure: its one effect, the call
    of the dashboard, is the argument [fetched]. *)
Definition check_under_registered_taskmanagers
    (instance_config : FlinkDeploymentConfig) (expected_count : Z)
    (fetched : result (gmap string Z)) : result (bool * string) :=
  let* (unhealthy, output) :=
    match registered_taskmanagers instance_config expected_count fetched with
    | Ok r => Ok r
    | Raise (ValueError e) =>
        Ok (true, unavailable_output instance_config e)
    | Raise e => Raise e
    end in
  Ok (unhealthy, if unhealthy then output +:+ alert_text instance_config else output).

(** The end of [check_flink_service_health], from the list of results on:
    the outputs are joined by a line of hashes, in the order of the list,
    and the event is critical when any result is unhealthy. This is the
    [aggregate] of the specification. *)
Definition delimiter : string := nl +:+ "########" +:+ nl.

Definition aggregate (results : list (bool * string)) : bool * string :=
  let output := join delimiter (map snd results) in
  (any (map fst results), output).

Section Pods.

(** [kubernetes_tools.is_pod_ready], imported by the check. *)
Variable is_pod_ready : V1Pod -> bool.

(** The clock: [now k] is what the call number [k] of
    [datetime.datetime.now] returns, the calls being numbered from 0 in
    the order in which they are made. The functions that read the clock take
    the number of calls made so far and return it updated. *)
Variable now : nat -> Z.

(** [container_lifetime] reads the clock once. *)
Definition container_lifetime (pod : V1Pod) (calls : nat) : Z * nat :=
  let st := status_start_time pod in
  (now calls - st, S calls).

(** The condition of the comprehension of [healthy_flink_containers_cnt]:
    the label is read first, for every pod; [and] evaluates the lifetime,
    and with it the clock, only for a pod of the type asked for that is
    ready. *)
Definition is_healthy_container
    (container_type : string) (pod : V1Pod) (calls : nat) : result (bool * nat) :=
  let* label := getitem_opt (metadata_labels pod) "flink-container-type" in
  if String.eqb label container_type && is_pod_ready pod
  then
    let '(lifetime, calls) := container_lifetime pod calls in
    Ok (Qltb 60 (total_seconds lifetime), calls)
  else Ok (false, calls).

Fixpoint healthy_flink_containers
    (si_pods : list V1Pod) (container_type : string) (calls : nat)
    : result (list V1Pod * nat) :=
  match si_pods with
  | [] => Ok ([], calls)
  | pod :: rest =>
      let* (keep, calls) := is_healthy_container container_type pod calls in
      let* (kept, calls) := healthy_flink_containers rest container_type calls in
      Ok (if keep then pod :: kept else kept, calls)
  end.

Definition healthy_flink_containers_cnt
    (si_pods : list V1Pod) (container_type : string) (calls : nat)
    : result (Z * nat) :=
  let* (kept, calls) := healthy_flink_containers si_pods container_type calls in
  Ok (Z.of_nat (length kept), calls).

(** [kubernetes_tools.filter_pods_by_service_instance] and
    [monitoring_tools.check_under_replication], imported by the check. *)
Variable filter_pods_by_service_instance :
  list V1Pod -> string -> string -> list V1Pod.
Variable check_under_replication :
  FlinkDeploymentConfig -> Z -> Z -> string -> bool * string.

(** [check_flink_service_health]: the value is the status and the output
    handed to [send_replication_event]; the same output is logged. The
    three counts read the clock one after the other. *)
Definition check_flink_service_health
    (instance_config : FlinkDeploymentConfig) (all_pods : list V1Pod)
    (fetched : result (gmap string Z)) (calls : nat) : result (Status * string) :=
  let si_pods :=
    filter_pods_by_service_instance all_pods
      (service instance_config) (instance instance_config) in
  let taskmanagers_expected_cnt :=
    get (get (config_dict instance_config) "taskmanager" {[ "instances" := 10 ]})
        "instances" 10 in
  let* (num_healthy_supervisors, calls) :=
    healthy_flink_containers_cnt si_pods "supervisor" calls in
  let* (num_healthy_jobmanagers, calls) :=
    healthy_flink_containers_cnt si_pods "jobmanager" calls in
  let* (num_healthy_taskmanagers, calls) :=
    healthy_flink_containers_cnt si_pods "taskmanager" calls in
  let supervisor :=
    check_under_replication instance_config 1 num_healthy_supervisors "supervisor" in
  let jobmanager :=
    check_under_replication instance_config 1 num_healthy_jobmanagers "jobmanager" in
  let taskmanager :=
    check_under_replication instance_config taskmanagers_expected_cnt
      num_healthy_taskmanagers "taskmanager" in
  let* registered :=
    check_under_registered_taskmanagers instance_config
      taskmanagers_expected_cnt fetched in
  let results := [supervisor; jobmanager; taskmanager; registered] in
  let '(unhealthy, output) := aggregate results in
  Ok (if unhealthy then CRITICAL else OK, output).

End Pods.

End Flink.

(** ** [cleanup_marathon_jobs.py] *)

Module Marathon.

Record MarathonApp : Type := { id : string }.

(** The Marathon server behind the client: the apps it runs, and the
    [delete_app] calls it has received, oldest first. *)
Record MarathonClient : Type := {
  apps : list MarathonApp;
  deleted : list string
}.

Definition list_apps (client : MarathonClient) : list MarathonApp := apps client.

(** [client.delete_app(app_id)], for a call that returns: the call is
    recorded and the server drops the app. *)
Definition delete_app (client : MarathonClient) (app_id : string) : MarathonClient :=
  {| apps := filter (λ app, id app ≠ app_id) (apps client);
     deleted := deleted client ++ [app_id] |}.

Section Cleanup.

(** [marathon_tools.get_marathon_services_for_cluster], from the
    configuration directory and the [include_iteration] flag, and the two
    job id helpers of [marathon_tools]. *)
Variable get_marathon_services_for_cluster :
  string -> bool -> list (string * string * string).
Variable compose_job_id : string -> string -> string -> string.
Variable remove_iteration_from_job_id : string -> string.

(** Entering [bounce_lib.bounce_lock]: the lock is taken, or the call
    raises. *)
Variable bounce_lock : string -> result unit.

(** The [for] loop of [cleanup_apps]. The client outlives an exception,
    so the state is returned next to the outcome. Log calls do not touch
    the client and are left out. *)
Fixpoint cleanup_loop
    (valid_app_list app_ids : list string) (client : MarathonClient)
    : MarathonClient * result unit :=
  match app_ids with
  | [] => (client, Ok tt)
  | app_id :: rest =>
      if negb (any (map (λ deployed_id, String.eqb app_id deployed_id) valid_app_list))
      then
        let srv_instance := remove_iteration_from_job_id app_id in
        match bounce_lock srv_instance with
        | Ok _ => cleanup_loop valid_app_list rest (delete_app client app_id)
        | Raise (IOError _) => cleanup_loop valid_app_list rest client
        | Raise e => (client, Raise e)
        end
      else cleanup_loop valid_app_list rest client
  end.

Definition cleanup_apps (client : MarathonClient) (soa_dir : string)
    : MarathonClient * result unit :=
  let valid_app_list := get_marathon_services_for_cluster soa_dir true in
  let valid_app_list :=
    map (λ '(service, instance, iteration),
           compose_job_id service instance iteration) valid_app_list in
  let app_ids := map id (list_apps client) in
  cleanup_loop valid_app_list app_ids client.

(** An app is stale when its id is not a valid one, and free when the bounce
    lock of its service instance can be taken. *)
Definition stale_and_free (valid_app_list : list string) (app_id : string) : Prop :=
  (app_id ∉ valid_app_list)
  /\ raised (bounce_lock (remove_iteration_from_job_id app_id)) = false.

#[global] Instance stale_and_free_dec valid_app_list app_id :
  Decision (stale_and_free valid_app_list app_id).
Proof. unfold stale_and_free. apply _. Defined.

End Cleanup.

End Marathon.

(** ** Observations *)

Module Observation.

Import Flink.



(** The [flink-container-type] label of a pod, if it has one. *)
Definition label_of (pod : V1Pod) : option string :=
  match metadata_labels pod with
  | Some labels => labels !! "flink-container-type"
  | None => None
  end.

(** The three conditions under which a pod counts as a healthy container
    of a type: its label is that type, it is ready, and it started more than
    60 seconds (sixty million microseconds) before the clock reading
    [reading]. *)
Definition counted (is_pod_ready : V1Pod -> bool) (reading : Z)
    (container_type : string) (pod : V1Pod) : Prop :=
  label_of pod = Some container_type
  /\ is_pod_ready pod = true
  /\ 60 * 1000000 < reading - status_start_time pod.

#[global] Instance counted_dec is_pod_ready reading container_type pod :
  Decision (counted is_pod_ready reading container_type pod).
Proof. unfold counted. apply _. Defined.

(** The pods for which a count of a type reads the clock: those of that
    type that are ready. *)
Definition timed (is_pod_ready : V1Pod -> bool) (container_type : string)
    (pod : V1Pod) : Prop :=
  label_of pod = Some container_type /\ is_pod_ready pod = true.

#[global] Instance timed_dec is_pod_ready container_type pod :
  Decision (timed is_pod_ready container_type pod).
Proof. unfold timed. apply _. Defined.

(** Every pod of the list carries the label the count reads. *)
Definition labelled (pods : list V1Pod) : Prop :=
  Forall (fun pod => is_Some (label_of pod)) pods.

(** What reading the label of a pod without it raises: [TypeError] when the
    pod has no labels at all, [KeyError] when it has others. *)
Definition missing_label (pod : V1Pod) : exn :=
  match metadata_labels pod with
  | Some _ => KeyError "flink-container-type"
  | None => TypeError not_subscriptable
  end.

End Observation.

(** ** Concrete inputs *)

Module Examples.

Import Flink Marathon.

(** A Flink instance alerting below 50%. *)
Definition example_config : FlinkDeploymentConfig :=
  {| service := "streamer"; instance := "main"; cluster := "devc";
     job_id := "streamer.main";
     config_dict := {[ "taskmanager" := {[ "instances" := 10 ]} ]};
     replication_crit_percentage := 50 |}.


(** An instance that tolerates no missing unit. *)
Definition strict_config : FlinkDeploymentConfig :=
  {| service := "streamer"; instance := "main"; cluster := "devc";
     job_id := "streamer.main";
     config_dict := ∅;
     replication_crit_percentage := 100 |}.

(** An instance alerting below 90%. *)
Definition ninety_config : FlinkDeploymentConfig :=
  {| service := "streamer"; instance := "main"; cluster := "devc";
     job_id := "streamer.main";
     config_dict := ∅;
     replication_crit_percentage := 90 |}.

(** Overviews of the dashboard: [n] taskmanagers, with or without the
    number of free slots. *)
Definition overview_of (n : Z) : gmap string Z := {[ "taskmanagers" := n ]}.

(** Pods: readiness is read off the [Ready] condition. *)
Definition ready_condition (pod : V1Pod) : bool :=
  bool_decide (("Ready", "True") ∈ status_conditions pod).

Definition pod_of (name kind : string) (start : Z) (ready : bool) : V1Pod :=
  {| metadata_name := name;
     metadata_labels := Some {[ "flink-container-type" := kind ]};
     status_start_time := start;
     status_conditions := [("Ready", if ready then "True" else "False")] |}.

(** A clock reading, and pods started 5 minutes, 30 seconds and 2 minutes
    before it. *)
Definition noon : Z := 43200 * 1000000.

(** A clock that starts at noon and is 20 seconds further at every call,
    and the same clock a minute later. *)
Definition ticking (call : nat) : Z := noon + Z.of_nat call * (20 * 1000000).
Definition ticking_later (call : nat) : Z := ticking call + 60 * 1000000.

(** Pods without the label: one with other labels, one with none. *)
Definition mislabelled_pod : V1Pod :=
  {| metadata_name := "other-0";
     metadata_labels := Some {[ "app" := "other" ]};
     status_start_time := noon - 300 * 1000000;
     status_conditions := [("Ready", "True")] |}.
Definition bare_pod : V1Pod :=
  {| metadata_name := "bare-0";
     metadata_labels := None;
     status_start_time := noon - 300 * 1000000;
     status_conditions := [("Ready", "True")] |}.
Definition old_taskmanager : V1Pod := pod_of "tm-0" "taskmanager" (noon - 300 * 1000000) true.
Definition young_taskmanager : V1Pod := pod_of "tm-1" "taskmanager" (noon - 30 * 1000000) true.
Definition old_jobmanager : V1Pod := pod_of "jm-0" "jobmanager" (noon - 120 * 1000000) true.
Definition late_taskmanager : V1Pod := pod_of "tm-2" "taskmanager" (noon - 30 * 1000000) true.

(** A Marathon server with one configured and two stale apps, one of which
    is being bounced. *)
Definition example_client : MarathonClient :=
  {| apps := [ {| id := "web.main.v2" |}; {| id := "web.main.v1" |};
               {| id := "api.canary.v7" |} ];
     deleted := [] |}.

Definition example_services (soa_dir : string) (include_iteration : bool)
    : list (string * string * string) :=
  [("web", "main", "v2")].

Definition example_compose_job_id (service instance iteration : string) : string :=
  service +:+ "." +:+ instance +:+ "." +:+ iteration.

Definition example_remove_iteration (app_id : string) : string :=
  if String.eqb app_id "api.canary.v7" then "api.canary" else "web.main".

Definition example_bounce_lock (srv_instance : string) : result unit :=
  if String.eqb srv_instance "api.canary"
  then Raise (IOError "Service api.canary is already being bounced!")
  else Ok tt.

(** A bounce lock whose lock file cannot be opened for one service instance:
    [open] raises [ValueError] on such a name. *)
Definition broken_bounce_lock (srv_instance : string) : result unit :=
  if String.eqb srv_instance "api.canary"
  then Raise (ValueError "embedded null byte")
  else Ok tt.

(** Stand-ins for the two imported helpers of the service check: every pod
    belongs to the instance, and a unit is under-replicated when fewer are
    available than expected. *)
Definition example_filter_pods (pod_list : list V1Pod) (service instance : string)
    : list V1Pod :=
  pod_list.

Definition example_check_under_replication
    (instance_config : FlinkDeploymentConfig) (expected_count num_available : Z)
    (sub_component : string) : bool * string :=
  (num_available <? expected_count,
   sub_component +:+ ": " +:+ pretty num_available +:+ "/" +:+ pretty expected_count).

End Examples.

(** ** [contrib/paasta_update_soa_memcpu.py] *)

Module Rightsizer.

(** The exceptions the rightsizer can meet. *)
Inductive exc : Type :=
| Value_error (msg : string)
| Key_error (key : string)
| Index_error
| Type_error
| Attribute_error
| Name_error (name : string)
| Import_error (name : string)
| Other_error (what : string).

Inductive outcome (A : Type) : Type :=
| Return (a : A)
| Throw (e : exc).
Arguments Return {A} a.
Arguments Throw {A} e.

Definition and_then {A B : Type} (r : outcome A) (k : A -> outcome B) : outcome B :=
  match r with
  | Return a => k a
  | Throw e => Throw e
  end.

Definition thrown {A : Type} (r : outcome A) : bool :=
  match r with
  | Return _ => false
  | Throw _ => true
  end.

(** What [json.loads] returns. A float is kept as its literal. *)
#[warnings="-register-all"]
Inductive json : Type :=
| JNull
| JBool (b : bool)
| JInt (n : Z)
| JFloat (literal : string)
| JStr (s : string)
| JList (items : list json)
| JObj (members : gmap string json).

(** [s.split(sep)] for a separator of one character: the pieces between the
    separators, of which there is always at least one. *)
Fixpoint split_on (sep : ascii) (s : string) : list string :=
  match s with
  | EmptyString => [""]
  | String c rest =>
      if Ascii.eqb c sep then "" :: split_on sep rest
      else match split_on sep rest with
           | piece :: pieces => String c piece :: pieces
           | [] => [String c ""]
           end
  end.

(** [l[i]] on a list. *)
Definition index {A : Type} (l : list A) (i : nat) : outcome A :=
  match l !! i with
  | Some x => Return x
  | None => Throw Index_error
  end.

(** [j[key]] with a string key: only a dictionary takes one. *)
Definition subscript (j : json) (key : string) : outcome json :=
  match j with
  | JObj members =>
      match members !! key with
      | Some v => Return v
      | None => Throw (Key_error key)
      end
  | _ => Throw Type_error
  end.

(** [j.get(key, dflt)]: only a dictionary has the method. *)
Definition dict_get (j : json) (key : string) (dflt : json) : outcome json :=
  match j with
  | JObj members => Return (default dflt (members !! key))
  | _ => Throw Attribute_error
  end.

(** [j.split(' ')]: only a string has the method. *)
Definition str_split (j : json) : outcome (list string) :=
  match j with
  | JStr s => Return (split_on " " s)
  | _ => Throw Attribute_error
  end.

Notation "'let+' x ':=' r 'in' k" := (and_then r (fun x => k))
  (at level 10, x pattern, r at level 100, k at level 200).

(** A report: the suggestions by criteria, each a dictionary. *)
Definition no_results : string := "Splunk request didn't return any results".

(** The body of the loop of [get_report_from_splunk] on one parsed line [d],
    a JSON object: the key and the entry it stores. *)
Definition report_entry (resource_type : string) (d : gmap string json)
    : outcome (string * gmap string json) :=
  match d !! "result" with
  | None => Throw (Value_error no_results)
  | Some result =>
      let+ criteria := subscript result "criteria" in
      let serv : gmap string json := ∅ in
      let+ parts := str_split criteria in
      let+ service := index parts 0 in
      let serv := <["service" := JStr service]> serv in
      let+ parts := str_split criteria in
      let+ cluster := index parts 1 in
      let serv := <["cluster" := JStr cluster]> serv in
      let+ parts := str_split criteria in
      let+ instance := index parts 2 in
      let serv := <["instance" := JStr instance]> serv in
      let+ owner := subscript result "service_owner" in
      let serv := <["owner" := owner]> serv in
      let+ time := subscript result "_time" in
      let+ parts := str_split time in
      let+ date := index parts 0 in
      let serv := <["date" := JStr date]> serv in
      let+ money := dict_get result "estimated_monthly_savings" (JInt 0) in
      let serv := <["money" := money]> serv in
      let+ project := dict_get result "project" (JStr "Unavailable") in
      let serv := <["project" := project]> serv in
      let+ serv :=
        if String.eqb resource_type "cpu" then
          let+ cpus := subscript result "suggested_cpus" in
          let+ old_cpus := subscript result "current_cpus" in
          Return (<["old_cpus" := old_cpus]> (<["cpus" := cpus]> serv))
        else Return serv in
      let+ serv :=
        if String.eqb resource_type "mem" then
          let+ mem := subscript result "suggested_mem" in
          let+ old_mem := subscript result "mem" in
          Return (<["old_mem" := old_mem]> (<["mem" := mem]> serv))
        else Return serv in
      match criteria with
      | JStr key => Return (key, serv)
      | _ => Throw Type_error
      end
  end.

(** The loop of [get_report_from_splunk] over the parsed lines. *)
Fixpoint services_to_update (resource_type : string) (resp_text : list (gmap string json))
    (acc : gmap string (gmap string json)) : outcome (gmap string (gmap string json)) :=
  match resp_text with
  | [] => Return acc
  | d :: rest =>
      let+ (criteria, serv) := report_entry resource_type d in
      services_to_update resource_type rest (<[criteria := serv]> acc)
  end.

(** [[f(x) for x in l]] for an [f] that may raise. *)
Fixpoint for_each {A B : Type} (f : A -> outcome B) (l : list A) : outcome (list B) :=
  match l with
  | [] => Return []
  | x :: rest =>
      let+ y := f x in
      let+ ys := for_each f rest in
      Return (y :: ys)
  end.

(** The double quote. *)
Definition dquote : string := String (ascii_of_nat 34) "".

Definition splunk_url : string :=
  "https://splunk-api.yelpcorp.com/servicesNS/nobody/yelp_performance/search/jobs/export".

Section Splunk.

(** [requests.post(url, data=data, auth=auth).text], and [json.loads] on a
    line of the export, which is a JSON object. *)
Variable requests_post : string -> gmap string string -> string * string -> outcome string.
Variable json_loads : string -> outcome (gmap string json).

Definition get_report_from_splunk (creds filename resource_type : string)
    : outcome (gmap string (gmap string json)) :=
  let url := splunk_url in
  let search :=
    "| inputlookup " +:+ filename +:+ " |"
    +:+ " eval _time = search_time | where _time > relative_time(now(),"
    +:+ dquote +:+ "-7d" +:+ dquote +:+ ")" in
  let data : gmap string string :=
    <["search" := search]> {[ "output_mode" := "json" ]} in
  let creds := split_on ":" creds in
  let+ user := index creds 0 in
  let+ password := index creds 1 in
  let+ text := requests_post url data (user, password) in
  let resp_text := split_on "010" text in
  let resp_text := filter (λ x, x ≠ "") resp_text in
  let+ resp_text := for_each json_loads resp_text in
  services_to_update resource_type resp_text ∅.

(** The arguments [parse_args] returns. *)
Record Args : Type := {
  splunk_creds : string;
  jira_creds : option string;
  ticket : bool;
  publish_reviews : bool;
  bulk : bool;
  cpu_report_csv : option string;
  mem_report_csv : option string;
  YELPSOA_DIR : option string
}.

(** The truth value of an optional string argument: [None] and the empty
    string are false. *)
Definition given (o : option string) : bool :=
  match o with
  | Some s => negb (String.eqb s "")
  | None => false
  end.

(** [from jira.client import JIRA]: the module is loaded, or the import
    raises. *)
Variable import_jira : outcome unit.

(** [main] up to the combined report: the checks of the arguments, with
    the import of the JIRA client in between, then the cpu report updated
    with the memory report. *)
Definition combined_report (args : Args) : outcome (gmap string (gmap string json)) :=
  let+ _ :=
    if ticket args then
      if negb (given (jira_creds args))
      then Throw (Value_error "No JIRA creds specified")
      else import_jira
    else Return tt in
  let+ _ :=
    if negb (given (cpu_report_csv args) || given (mem_report_csv args))
    then Throw (Value_error "Need at least a CPU or memory report to work on")
    else Return tt in
  let combined : gmap string (gmap string json) := ∅ in
  let+ combined :=
    if given (cpu_report_csv args) then
      let+ report :=
        get_report_from_splunk (splunk_creds args) (default "" (cpu_report_csv args)) "cpu" in
      Return (report ∪ combined)
    else Return combined in
  let+ combined :=
    if given (mem_report_csv args) then
      let+ report :=
        get_report_from_splunk (splunk_creds args) (default "" (mem_report_csv args)) "mem" in
      Return (report ∪ combined)
    else Return combined in
  Return combined.

(** [individual_rightsize]: its loop is over [cpu_report], a name that is
    bound nowhere. *)
Definition individual_rightsize (report : gmap string (gmap string json)) : outcome unit :=
  Throw (Name_error "cpu_report").

(** The bulk branch of [main]: the working directory, the clone and
    [bulk_rightsize], which edit files and run git. *)
Variable bulk_branch : gmap string (gmap string json) -> option string -> outcome unit.

Definition main (args : Args) : outcome unit :=
  let+ combined := combined_report args in
  if bulk args then bulk_branch combined (YELPSOA_DIR args)
  else individual_rightsize combined.

End Splunk.

(** The loop of [get_reviewers] over the authors of the log, most recent
    first: it stops once three are known. *)
Fixpoint recent_authors_loop (authors : list string) (recent_authors : gset string)
    : gset string :=
  match authors with
  | [] => recent_authors
  | author :: rest =>
      let recent_authors := {[ author ]} ∪ recent_authors in
      if bool_decide (3 <= size recent_authors)%nat then recent_authors
      else recent_authors_loop rest recent_authors
  end.

(** [get_reviewers], from the lines [git log --format=%ae] printed for the
    file. *)
Definition get_reviewers (log_lines : list string) : gset string :=
  let authors := log_lines in
  let authors := map (λ x, default "" (split_on "@" x !! 0%nat)) authors in
  recent_authors_loop authors ∅.

End Rightsizer.

(** ** Reports of the rightsizer *)

Module Reports.

Import Rightsizer.

(** [c in s] for a character. *)
Fixpoint occurs (c : ascii) (s : string) : bool :=
  match s with
  | EmptyString => false
  | String c' rest => Ascii.eqb c' c || occurs c rest
  end.

(** [x.split('@')[0]]: what comes before the first [@] of an address. *)
Definition local_part (email : string) : string :=
  default "" (split_on "@" email !! 0%nat).

(** The keys of every entry, and those a cpu or a memory report adds. *)
Definition common_keys : gset string :=
  {[ "service"; "cluster"; "instance"; "owner"; "date"; "money"; "project" ]}.
Definition cpu_keys : gset string := {[ "cpus"; "old_cpus" ]}.
Definition mem_keys : gset string := {[ "mem"; "old_mem" ]}.

(** The entry of a line before the cpu or memory keys are added. *)
Definition base_entry (members : gmap string json)
    (service cluster instance : string) (owner : json) (date : string)
    : gmap string json :=
  <["project" := default (JStr "Unavailable") (members !! "project")]>
    (<["money" := default (JInt 0) (members !! "estimated_monthly_savings")]>
       (<["date" := JStr date]>
          (<["owner" := owner]>
             (<["instance" := JStr instance]>
                (<["cluster" := JStr cluster]>
                   (<["service" := JStr service]> ∅)))))).

(** Two lines of an export about the same instance, one of a cpu report and
    one of a memory report, and a line that is no result. *)
Definition cpu_line : gmap string json :=
  {[ "preview" := JBool false;
     "result" := JObj {[ "criteria" := JStr "web norcal-devc main";
                         "service_owner" := JStr "team-web";
                         "_time" := JStr "2019-06-01 00:00:00";
                         "suggested_cpus" := JStr "0.5";
                         "current_cpus" := JStr "1" ]} ]}.

Definition mem_line : gmap string json :=
  {[ "preview" := JBool false;
     "result" := JObj {[ "criteria" := JStr "web norcal-devc main";
                         "service_owner" := JStr "team-web";
                         "_time" := JStr "2019-06-01 00:00:00";
                         "project" := JStr "WEB";
                         "suggested_mem" := JStr "512";
                         "mem" := JStr "1024" ]} ]}.

Definition other_cpu_line : gmap string json :=
  {[ "result" := JObj {[ "criteria" := JStr "api norcal-devc canary";
                         "service_owner" := JStr "team-api";
                         "_time" := JStr "2019-06-01 00:00:00";
                         "suggested_cpus" := JStr "2";
                         "current_cpus" := JStr "1" ]} ]}.

(** The entries these lines give, and the cpu report of the first and
    third. *)
Definition cpu_entry : gmap string json :=
  {[ "service" := JStr "web"; "cluster" := JStr "norcal-devc"; "instance" := JStr "main";
     "owner" := JStr "team-web"; "date" := JStr "2019-06-01"; "money" := JInt 0;
     "project" := JStr "Unavailable"; "cpus" := JStr "0.5"; "old_cpus" := JStr "1" ]}.

Definition mem_entry : gmap string json :=
  {[ "service" := JStr "web"; "cluster" := JStr "norcal-devc"; "instance" := JStr "main";
     "owner" := JStr "team-web"; "date" := JStr "2019-06-01"; "money" := JInt 0;
     "project" := JStr "WEB"; "mem" := JStr "512"; "old_mem" := JStr "1024" ]}.

Definition other_cpu_entry : gmap string json :=
  {[ "service" := JStr "api"; "cluster" := JStr "norcal-devc"; "instance" := JStr "canary";
     "owner" := JStr "team-api"; "date" := JStr "2019-06-01"; "money" := JInt 0;
     "project" := JStr "Unavailable"; "cpus" := JStr "2"; "old_cpus" := JStr "1" ]}.

Definition example_cpu_report : gmap string (gmap string json) :=
  {[ "web norcal-devc main" := cpu_entry; "api norcal-devc canary" := other_cpu_entry ]}.

(** What the two reports combine to: the instance of both has its memory
    entry. *)
Definition example_combined : gmap string (gmap string json) :=
  {[ "web norcal-devc main" := mem_entry; "api norcal-devc canary" := other_cpu_entry ]}.

Definition message_line : gmap string json :=
  {[ "messages" := JList [JStr "no results"] ]}.

(** A Splunk that answers the cpu lookup with two lines and any other lookup
    with one, and a parser that knows these lines. *)
Definition example_post (url : string) (data : gmap string string)
    (auth : string * string) : outcome string :=
  if bool_decide (data !! "search"
                  = Some ("| inputlookup cpu.csv |"
                          +:+ " eval _time = search_time | where _time > relative_time(now(),"
                          +:+ dquote +:+ "-7d" +:+ dquote +:+ ")"))
  then Return ("cpu-line" +:+ nl +:+ nl +:+ "other-cpu-line" +:+ nl)
  else Return ("mem-line" +:+ nl).

Definition example_loads (line : string) : outcome (gmap string json) :=
  if String.eqb line "cpu-line" then Return cpu_line
  else if String.eqb line "other-cpu-line" then Return other_cpu_line
  else if String.eqb line "mem-line" then Return mem_line
  else Throw (Value_error "Expecting value").

Definition example_bulk (report : gmap string (gmap string json))
    (yelpsoa_dir : option string) : outcome unit :=
  Return tt.

(** A host with the JIRA client installed, and one without. *)
Definition example_import : outcome unit := Return tt.
Definition failing_import : outcome unit := Throw (Import_error "jira").

(** A run with [-t] and JIRA credentials, and no report. *)
Definition ticket_args : Args :=
  {| splunk_creds := "user:secret"; jira_creds := Some "user:secret"; ticket := true;
     publish_reviews := false; bulk := true;
     cpu_report_csv := None; mem_report_csv := None;
     YELPSOA_DIR := None |}.

(** The same run without [-b]. *)
Definition individual_args : Args :=
  {| splunk_creds := "user:secret"; jira_creds := None; ticket := false;
     publish_reviews := false; bulk := false;
     cpu_report_csv := Some "cpu.csv"; mem_report_csv := Some "mem.csv";
     YELPSOA_DIR := None |}.

Definition example_args : Args :=
  {| splunk_creds := "user:secret"; jira_creds := None; ticket := false;
     publish_reviews := false; bulk := true;
     cpu_report_csv := Some "cpu.csv"; mem_report_csv := Some "mem.csv";
     YELPSOA_DIR := Some "/nail/tmp/yelpsoa-configs" |}.

End Reports.

(** ** Facts about the under-replication threshold *)

Module ThresholdFacts.

Import Flink.

Lemma Qltb_lt (a b : Q) : Qltb a b = true <-> (a < b)%Q.
Proof.
  unfold Qltb. rewrite negb_true_iff, <- not_true_iff_false, Qle_bool_iff.
  split; [apply Qnot_le_lt | apply Qlt_not_le].
Qed.

Lemma truediv_nonzero (a b : Z) :
  b <> 0 -> truediv (inject_Z a) (inject_Z b) = Ok (inject_Z a / inject_Z b)%Q.
Proof.
  intros Hb. unfold truediv.
  destruct (Qeq_bool (inject_Z b) 0) eqn:E; [|reflexivity].
  apply Qeq_bool_eq in E. unfold Qeq, inject_Z in E. simpl in E. lia.
Qed.

(** With a positive expected count, the percentage is below the threshold
    exactly when the cross product says so. *)
Lemma percent_lt_pos (n e c : Z) :
  0 < e -> ((inject_Z n / inject_Z e * 100 < inject_Z c)%Q <-> n * 100 < e * c).
Proof.
  intros He. destruct e as [|p|p]; try lia.
  unfold Qlt, Qdiv, Qmult, Qinv, inject_Z. simpl.
  rewrite ?Pos.mul_1_r, ?Z.mul_1_r. lia.
Qed.

Lemma percent_lt_zero (c : Z) : (100 < inject_Z c)%Q <-> 100 < c.
Proof. unfold Qlt, inject_Z. simpl. lia. Qed.

(** The range of the counts and of the threshold, as the helper tests it. *)
Lemma range_test (n e c : Z) :
  (n <? 0) || (e <? 0) || (c <? 0) || (100 <? c) = true
  <-> n < 0 \/ e < 0 \/ c < 0 \/ 100 < c.
Proof. rewrite !orb_true_iff, !Z.ltb_lt. tauto. Qed.

(** [is_under_replicated] on counts and a threshold in range raises
    nothing: the division is guarded. *)
Lemma is_under_replicated_ok (n e c : Z) :
  0 <= n -> 0 <= e -> 0 <= c <= 100 ->
  exists under ratio, is_under_replicated n e c = Ok (under, ratio)
    /\ (under = true <-> 0 < e /\ n * 100 < e * c).
Proof.
  intros Hn He Hc. unfold is_under_replicated.
  destruct ((n <? 0) || (e <? 0) || (c <? 0) || (100 <? c)) eqn:Hrange.
  { apply range_test in Hrange. lia. }
  destruct (Z.eqb_spec e 0) as [->|Hne]; simpl.
  - do 2 eexists. split; [reflexivity|].
    rewrite Qltb_lt, percent_lt_zero. lia.
  - rewrite truediv_nonzero by exact Hne. simpl.
    do 2 eexists. split; [reflexivity|].
    rewrite Qltb_lt, percent_lt_pos by lia. lia.
Qed.

(** Out of range, it raises [InvalidArgument]. *)
Lemma is_under_replicated_out_of_range (n e c : Z) :
  n < 0 \/ e < 0 \/ c < 0 \/ 100 < c ->
  is_under_replicated n e c = Raise InvalidArgument.
Proof.
  intros Hout. apply range_test in Hout.
  unfold is_under_replicated. rewrite Hout. reflexivity.
Qed.

(** What the check returns once the dashboard has answered, for values in
    range. *)
Lemma check_of_overview (cfg : FlinkDeploymentConfig) (expected : Z)
    (overview : gmap string Z) :
  let observed := get overview "taskmanagers" 0 in
  let threshold := get_replication_crit_percentage cfg in
  0 <= expected -> 0 <= observed -> 0 <= threshold <= 100 ->
  exists unhealthy : bool,
    check_under_registered_taskmanagers cfg expected (Ok overview)
    = Ok (unhealthy,
          if unhealthy
          then reported_output cfg observed expected threshold +:+ alert_text cfg
          else reported_output cfg observed expected threshold)
    /\ (unhealthy = true <-> 0 < expected /\ observed * 100 < expected * threshold).
Proof.
  intros observed threshold Hexp Hobs Hthr.
  destruct (is_under_replicated_ok observed expected threshold Hobs Hexp Hthr)
    as (under & ratio & Hrun & Hiff).
  exists under. split; [|exact Hiff].
  unfold check_under_registered_taskmanagers, registered_taskmanagers.
  simpl. fold observed threshold. rewrite Hrun. reflexivity.
Qed.

(** What the check does once the dashboard has answered, for a value out
    of range: [InvalidArgument] is no [ValueError] and is not caught. *)
Lemma check_out_of_range (cfg : FlinkDeploymentConfig) (expected : Z)
    (overview : gmap string Z) :
  let observed := get overview "taskmanagers" 0 in
  let threshold := get_replication_crit_percentage cfg in
  expected < 0 \/ observed < 0 \/ threshold < 0 \/ 100 < threshold ->
  check_under_registered_taskmanagers cfg expected (Ok overview)
  = Raise InvalidArgument.
Proof.
  intros observed threshold Hout.
  unfold check_under_registered_taskmanagers, registered_taskmanagers.
  simpl. fold observed threshold.
  rewrite is_under_replicated_out_of_range by tauto. reflexivity.
Qed.

(** An exception of the dashboard call other than [ValueError] leaves the
    check as it is. *)
Lemma check_of_exception (cfg : FlinkDeploymentConfig) (expected : Z) (e : exn) :
  (forall msg, e <> ValueError msg) ->
  check_under_registered_taskmanagers cfg expected (Raise e) = Raise e.
Proof.
  intros Hother. unfold check_under_registered_taskmanagers. simpl.
  destruct e; try reflexivity. destruct (Hother msg eq_refl).
Qed.

End ThresholdFacts.

(** ** The under-registered-taskmanagers check *)

Module RegisteredTaskmanagers.

Import Flink Observation Examples ThresholdFacts.

(** C1. Once the dashboard has answered with [observed] taskmanagers, and
    for counts and a threshold in range (expected and observed count not
    negative, threshold between 0 and 100): with a positive expected count
    the check reports unhealthy if and only if
    [observed * 100 < expected * threshold], compared exactly; with an
    expected count of zero it reports healthy. *)
Theorem under_replicated_iff_below_threshold
    (cfg : FlinkDeploymentConfig) (expected : Z) (overview : gmap string Z) :
  let observed := get overview "taskmanagers" 0 in
  let threshold := get_replication_crit_percentage cfg in
  0 <= expected -> 0 <= observed -> 0 <= threshold <= 100 ->
  exists (unhealthy : bool) (output : string),
    check_under_registered_taskmanagers cfg expected (Ok overview)
    = Ok (unhealthy, output)
    /\ (0 < expected ->
        (unhealthy = true <-> observed * 100 < expected * threshold))
    /\ (expected = 0 -> unhealthy = false).
Proof.
  intros observed threshold Hexp Hobs Hthr.
  destruct (check_of_overview cfg expected overview Hexp Hobs Hthr)
    as (unhealthy & Hrun & Hiff).
  fold observed threshold in Hrun, Hiff.
  exists unhealthy. eexists. split; [exact Hrun|]. split.
  - intros Hpos. rewrite Hiff. lia.
  - intros Hzero. apply not_true_is_false. rewrite Hiff. lia.
Qed.

Lemma under_replicated_iff_below_threshold_witness :
  exists (unhealthy : bool) (output : string),
    check_under_registered_taskmanagers example_config 10 (Ok (overview_of 4))
    = Ok (unhealthy, output)
    /\ (0 < 10 -> (unhealthy = true <-> 4 * 100 < 10 * 50))
    /\ (10 = 0 -> unhealthy = false).
Proof.
  apply (under_replicated_iff_below_threshold example_config 10 (overview_of 4));
    vm_compute; intuition discriminate.
Defined.



(** C4. Once the dashboard has answered, a negative expected or observed
    count, or a threshold below 0 or above 100, makes the check raise
    [InvalidArgument]: no verdict is returned for such values. *)
Theorem out_of_range_values_are_rejected
    (cfg : FlinkDeploymentConfig) (expected : Z) (overview : gmap string Z) :
  let observed := get overview "taskmanagers" 0 in
  let threshold := get_replication_crit_percentage cfg in
  expected < 0 \/ observed < 0 \/ threshold < 0 \/ 100 < threshold ->
  check_under_registered_taskmanagers cfg expected (Ok overview)
  = Raise InvalidArgument.
Proof. apply check_out_of_range. Qed.

Lemma out_of_range_values_are_rejected_witness :
  check_under_registered_taskmanagers example_config (-1) (Ok (overview_of 0))
  = Raise InvalidArgument.
Proof.
  apply (out_of_range_values_are_rejected example_config (-1) (overview_of 0)).
  left. reflexivity.
Defined.

(** C7. With a threshold of 100 and fewer taskmanagers observed than
    expected (the observed count not negative), the check reports
    unhealthy. *)
Theorem full_threshold_flags_any_missing_unit
    (cfg : FlinkDeploymentConfig) (expected : Z) (overview : gmap string Z) :
  let observed := get overview "taskmanagers" 0 in
  get_replication_crit_percentage cfg = 100 ->
  0 <= observed -> observed < expected ->
  exists output : string,
    check_under_registered_taskmanagers cfg expected (Ok overview)
    = Ok (true, output).
Proof.
  intros observed Hthr Hobs Hlt.
  destruct (check_of_overview cfg expected overview) as (unhealthy & Hrun & Hiff);
    [fold observed; rewrite ?Hthr; lia..|].
  fold observed in Hrun, Hiff. rewrite Hthr in Hiff.
  assert (unhealthy = true) as -> by (apply Hiff; lia).
  eexists. exact Hrun.
Qed.

Lemma full_threshold_flags_any_missing_unit_witness :
  exists output : string,
    check_under_registered_taskmanagers strict_config 10 (Ok (overview_of 9))
    = Ok (true, output).
Proof.
  apply (full_threshold_flags_any_missing_unit strict_config 10 (overview_of 9));
    vm_compute; intuition discriminate.
Defined.

(** The examples of the specification: 10 of 10 and 8 of 10 against a
    threshold of 90, and nothing expected. *)
Example all_registered :
  check_under_registered_taskmanagers ninety_config 10 (Ok (overview_of 10))
  = Ok (false, reported_output ninety_config 10 10 90).
Proof. vm_compute. reflexivity. Qed.

Example eight_of_ten_registered :
  check_under_registered_taskmanagers ninety_config 10 (Ok (overview_of 8))
  = Ok (true, reported_output ninety_config 8 10 90 +:+ alert_text ninety_config).
Proof. vm_compute. reflexivity. Qed.

Example nothing_expected :
  check_under_registered_taskmanagers ninety_config 0 (Ok (overview_of 0))
  = Ok (false, reported_output ninety_config 0 0 90).
Proof. vm_compute. reflexivity. Qed.

End RegisteredTaskmanagers.

(** ** The verdict as a function of the observation *)

Module Verdicts.

Import Flink Observation Examples.

(** C5. When the dashboard call raises [ValueError], the check does not
    raise: it returns the pair of [True] and of a message saying that the
    dashboard is not available, followed by the alert text. The whole
    service check then sends a critical event, unless counting the pods
    raised before, on a pod without the label. *)
Theorem unavailable_dashboard_is_unhealthy
    (cfg : FlinkDeploymentConfig) (expected : Z) (msg : string) :
  check_under_registered_taskmanagers cfg expected (Raise (ValueError msg))
  = Ok (true, unavailable_output cfg msg +:+ alert_text cfg)
  /\ forall (is_pod_ready : V1Pod -> bool) (now : nat -> Z)
       (filter_pods : list V1Pod -> string -> string -> list V1Pod)
       (check_under_replication : FlinkDeploymentConfig -> Z -> Z -> string -> bool * string)
       (all_pods : list V1Pod) (calls : nat),
      match check_flink_service_health is_pod_ready now filter_pods
              check_under_replication cfg all_pods (Raise (ValueError msg)) calls with
      | Ok (status, _) => status = CRITICAL
      | Raise e => e = KeyError "flink-container-type" \/ e = TypeError not_subscriptable
      end.
Proof.
  split; [reflexivity|].
  intros is_pod_ready now filter_pods cur all_pods calls.
  unfold check_flink_service_health.
  set (si_pods := filter_pods all_pods (service cfg) (instance cfg)).
  assert (Hcnt : forall kind calls,
             match healthy_flink_containers_cnt is_pod_ready now si_pods kind calls with
             | Ok _ => True
             | Raise e =>
                 e = KeyError "flink-container-type" \/ e = TypeError not_subscriptable
             end).
  { intros kind. unfold healthy_flink_containers_cnt.
    induction si_pods as [|pod pods IH]; intros calls'; simpl; [exact I|].
    unfold is_healthy_container, container_lifetime, getitem_opt, getitem.
    destruct (metadata_labels pod) as [labels|]; simpl; [|right; reflexivity].
    destruct (labels !! "flink-container-type") as [label|]; simpl; [|left; reflexivity].
    destruct (String.eqb label kind && is_pod_ready pod); simpl.
    - specialize (IH (S calls')).
      destruct (healthy_flink_containers is_pod_ready now pods kind (S calls'))
        as [[kept c']|]; simpl in *; [exact I | exact IH].
    - specialize (IH calls').
      destruct (healthy_flink_containers is_pod_ready now pods kind calls')
        as [[kept c']|]; simpl in *; [exact I | exact IH]. }
  pose proof (Hcnt "supervisor" calls) as H1.
  destruct (healthy_flink_containers_cnt is_pod_ready now si_pods "supervisor" calls)
    as [[n1 calls1]|]; simpl; [|exact H1].
  pose proof (Hcnt "jobmanager" calls1) as H2.
  destruct (healthy_flink_containers_cnt is_pod_ready now si_pods "jobmanager" calls1)
    as [[n2 calls2]|]; simpl; [|exact H2].
  pose proof (Hcnt "taskmanager" calls2) as H3.
  destruct (healthy_flink_containers_cnt is_pod_ready now si_pods "taskmanager" calls2)
    as [[n3 calls3]|]; simpl; [|exact H3].
  repeat match goal with |- context [if fst ?r then _ else _] => destruct (fst r) end;
    reflexivity.
Qed.




End Verdicts.

(** ** Combining the results of the sub-checks *)

Module Aggregate.

Import Flink.

Section Join.

Variable sep : string.

Lemma append_assoc (s1 s2 s3 : string) :
  (s1 +:+ s2) +:+ s3 = s1 +:+ (s2 +:+ s3).
Proof.
  induction s1 as [|a s1 IH]; [reflexivity|].
  change (String a ((s1 +:+ s2) +:+ s3) = String a (s1 +:+ (s2 +:+ s3))).
  rewrite IH. reflexivity.
Qed.

Lemma join_cons (p : string) (rest : list string) :
  rest <> [] -> join sep (p :: rest) = p +:+ sep +:+ join sep rest.
Proof. destruct rest; [congruence | reflexivity]. Qed.

(** Joining two non-empty lists joins each and puts one separator in
    between: the order of the parts is kept. *)
Lemma join_app (first rest : list string) :
  first <> [] -> rest <> [] ->
  join sep (first ++ rest) = join sep first +:+ sep +:+ join sep rest.
Proof.
  intros Hfirst Hrest. induction first as [|p first IH]; [congruence|].
  destruct first as [|q first].
  - simpl app. rewrite join_cons by exact Hrest. reflexivity.
  - change ((p :: q :: first) ++ rest) with (p :: ((q :: first) ++ rest)).
    rewrite join_cons by discriminate.
    rewrite IH by discriminate.
    rewrite (join_cons p (q :: first)) by discriminate.
    rewrite !append_assoc. reflexivity.
Qed.

End Join.

Lemma any_orb (flags : list bool) : any flags = foldr orb false flags.
Proof. induction flags as [|[] flags IH]; simpl; auto. Qed.

Lemma any_app (flags1 flags2 : list bool) :
  any (flags1 ++ flags2) = any flags1 || any flags2.
Proof. induction flags1 as [|[] flags1 IH]; simpl; auto. Qed.

Lemma any_true_iff (flags : list bool) : any flags = true <-> true ∈ flags.
Proof.
  induction flags as [|b flags IH]; simpl.
  - split; [discriminate | intros H; inversion H].
  - rewrite elem_of_cons. destruct b; [tauto|].
    rewrite IH. split; [tauto | intros [H|H]; [discriminate | exact H]].
Qed.

(** Combining the verdicts of the groups of a list gives the boolean of
    the whole list. *)
Lemma aggregate_groups (groups : list (list (bool * string))) :
  fst (aggregate (map aggregate groups)) = fst (aggregate (concat groups)).
Proof.
  unfold aggregate. simpl.
  induction groups as [|group groups IH]; [reflexivity|].
  simpl. rewrite map_app, any_app, <- IH.
  destruct (any (map fst group)); reflexivity.
Qed.

(** C2. For every list of results: the boolean of the combination is the
    disjunction of the booleans of the list, true exactly when some result
    is unhealthy, and it is the same for every grouping of the list into
    sub-lists combined first; the message is the messages of the list in
    its order with the delimiter in between: the message of a single
    result is its own, and the message of a list cut in two non-empty
    parts is the message of the first part, the delimiter, then the message
    of the second part. *)
Theorem aggregate_is_or_and_ordered_join (results : list (bool * string)) :
  fst (aggregate results) = foldr orb false (map fst results)
  /\ (fst (aggregate results) = true <-> exists r, r ∈ results /\ fst r = true)
  /\ (forall groups : list (list (bool * string)),
        concat groups = results ->
        fst (aggregate (map aggregate groups)) = fst (aggregate results))
  /\ snd (aggregate results) = join delimiter (map snd results)
  /\ (forall r, results = [r] -> snd (aggregate results) = snd r)
  /\ (forall first rest : list (bool * string),
        results = first ++ rest -> first <> [] -> rest <> [] ->
        snd (aggregate results)
        = snd (aggregate first) +:+ delimiter +:+ snd (aggregate rest)).
Proof.
  split; [apply any_orb|].
  split; [split|].
  - simpl. rewrite any_true_iff, list_elem_of_fmap.
    intros ([b s] & Hb & Hin). exists (b, s). simpl in *. auto.
  - intros ([b s] & Hin & Hb). simpl in *. subst b.
    apply any_true_iff, list_elem_of_fmap. exists (true, s). auto.
  - split; [intros groups <-; apply aggregate_groups|].
    split; [reflexivity|].
    split; [intros r ->; reflexivity|].
    intros first rest -> Hfirst Hrest. simpl.
    rewrite map_app. apply join_app.
    + destruct first; [congruence | discriminate].
    + destruct rest; [congruence | discriminate].
Qed.

(** C8. Combining no result at all gives a healthy verdict with an empty
    message. *)
Theorem aggregate_nil : aggregate [] = (false, "").
Proof. reflexivity. Qed.

End Aggregate.

(** ** Counting the healthy containers *)

Module HealthyContainers.

Import Flink Observation Examples.

(** A lifetime is above 60 seconds exactly when it is above sixty million
    microseconds. *)
Lemma total_seconds_above_60 (d : Z) :
  Qltb 60 (total_seconds d) = true <-> 60 * 1000000 < d.
Proof.
  rewrite ThresholdFacts.Qltb_lt.
  unfold total_seconds, Qlt, Qdiv, Qmult, Qinv, inject_Z. simpl. lia.
Qed.

Section Count.

Variable is_pod_ready : V1Pod -> bool.
Variable now : nat -> Z.
Variable container_type : string.

(** On a pod that carries the label, the condition of the comprehension
    decides the three conditions, the lifetime being taken from the next
    reading of the clock; the clock is read when the pod is of the type
    asked for and ready. *)
Lemma is_healthy_container_labelled (pod : V1Pod) (calls : nat) :
  is_Some (label_of pod) ->
  is_healthy_container is_pod_ready now container_type pod calls
  = Ok (bool_decide (counted is_pod_ready (now calls) container_type pod),
        if decide (timed is_pod_ready container_type pod) then S calls else calls).
Proof.
  intros [label Hlabel].
  unfold is_healthy_container, container_lifetime, getitem_opt, getitem.
  pose proof Hlabel as Hl. unfold label_of in Hl.
  destruct (metadata_labels pod) as [labels|]; [|discriminate].
  rewrite Hl. simpl.
  destruct (String.eqb_spec label container_type) as [->|Hne]; simpl.
  - destruct (is_pod_ready pod) eqn:Hready; simpl.
    + rewrite decide_True by (split; done). do 2 f_equal.
      apply eq_true_iff_eq.
      rewrite total_seconds_above_60, bool_decide_eq_true. unfold counted. intuition.
    + rewrite decide_False by (intros [_ ?]; congruence).
      rewrite bool_decide_eq_false_2 by (intros (_ & ? & _); congruence).
      reflexivity.
  - rewrite decide_False by (intros [? _]; congruence).
    rewrite bool_decide_eq_false_2 by (intros (? & _); congruence).
    reflexivity.
Qed.

(** A pod without the label makes the count raise: [TypeError] when it has
    no labels at all, [KeyError] otherwise. *)
Lemma is_healthy_container_unlabelled (pod : V1Pod) (calls : nat) :
  label_of pod = None ->
  is_healthy_container is_pod_ready now container_type pod calls
  = Raise (missing_label pod).
Proof.
  unfold label_of, missing_label, is_healthy_container, getitem_opt, getitem.
  destruct (metadata_labels pod) as [labels|]; [|reflexivity].
  intros ->. reflexivity.
Qed.

(** A list is examined in order: its first part, then the rest with the
    clock as the first part left it. *)
Lemma healthy_flink_containers_app (first rest : list V1Pod) (calls : nat) :
  healthy_flink_containers is_pod_ready now (first ++ rest) container_type calls
  = let* (kept1, calls1) :=
      healthy_flink_containers is_pod_ready now first container_type calls in
    let* (kept2, calls2) :=
      healthy_flink_containers is_pod_ready now rest container_type calls1 in
    Ok (kept1 ++ kept2, calls2).
Proof.
  revert calls. induction first as [|pod first IH]; intros calls; simpl.
  - destruct (healthy_flink_containers is_pod_ready now rest container_type calls)
      as [[kept2 calls2]|]; reflexivity.
  - destruct (is_healthy_container is_pod_ready now container_type pod calls)
      as [[keep calls0]|]; simpl; [|reflexivity].
    rewrite IH.
    destruct (healthy_flink_containers is_pod_ready now first container_type calls0)
      as [[kept1 calls1]|]; simpl; [|reflexivity].
    destruct (healthy_flink_containers is_pod_ready now rest container_type calls1)
      as [[kept2 calls2]|]; simpl; [|reflexivity].
    destruct keep; reflexivity.
Qed.

(** Over pods that all carry the label the comprehension returns; it has
    read the clock once for every ready pod of the type, and it keeps no
    more pods than that. *)
Lemma healthy_flink_containers_labelled (pods : list V1Pod) (calls : nat) :
  labelled pods ->
  exists kept,
    healthy_flink_containers is_pod_ready now pods container_type calls
    = Ok (kept, (calls + length (filter (timed is_pod_ready container_type) pods))%nat)
    /\ (length kept <= length (filter (timed is_pod_ready container_type) pods))%nat.
Proof.
  intros Hall. revert calls.
  induction Hall as [|pod pods Hpod _ IH]; intros calls.
  - exists []. simpl. rewrite Nat.add_0_r. split; [reflexivity | lia].
  - simpl. rewrite is_healthy_container_labelled by exact Hpod. simpl.
    rewrite filter_cons.
    destruct (decide (timed is_pod_ready container_type pod)) as [Htimed|Hnot].
    + destruct (IH (S calls)) as (kept & -> & Hlen). simpl.
      eexists. split; [f_equal; f_equal; lia|].
      destruct (bool_decide _); simpl; lia.
    + destruct (IH calls) as (kept & -> & Hlen). simpl.
      rewrite bool_decide_eq_false_2 by (intros (? & ? & _); apply Hnot; split; done).
      eexists. split; [reflexivity | exact Hlen].
Qed.

Lemma healthy_flink_containers_cnt_labelled (pods : list V1Pod) (calls : nat) :
  labelled pods ->
  exists n : Z,
    healthy_flink_containers_cnt is_pod_ready now pods container_type calls
    = Ok (n, (calls + length (filter (timed is_pod_ready container_type) pods))%nat)
    /\ 0 <= n <= Z.of_nat (length (filter (timed is_pod_ready container_type) pods)).
Proof.
  intros Hall. unfold healthy_flink_containers_cnt.
  destruct (healthy_flink_containers_labelled pods calls Hall) as (kept & -> & Hlen).
  simpl. eexists. split; [reflexivity | lia].
Qed.

(** The count of a list from the counts of its parts. *)
Lemma healthy_flink_containers_cnt_app (first rest : list V1Pod) (calls : nat) :
  healthy_flink_containers_cnt is_pod_ready now (first ++ rest) container_type calls
  = let* (n1, calls1) :=
      healthy_flink_containers_cnt is_pod_ready now first container_type calls in
    let* (n2, calls2) :=
      healthy_flink_containers_cnt is_pod_ready now rest container_type calls1 in
    Ok (n1 + n2, calls2).
Proof.
  unfold healthy_flink_containers_cnt. rewrite healthy_flink_containers_app.
  destruct (healthy_flink_containers is_pod_ready now first container_type calls)
    as [[kept1 calls1]|]; simpl; [|reflexivity].
  destruct (healthy_flink_containers is_pod_ready now rest container_type calls1)
    as [[kept2 calls2]|]; simpl; [|reflexivity].
  rewrite length_app. do 2 f_equal. lia.
Qed.

(** The count of a single pod that carries the label. *)
Lemma healthy_flink_containers_cnt_one (pod : V1Pod) (calls : nat) :
  is_Some (label_of pod) ->
  healthy_flink_containers_cnt is_pod_ready now [pod] container_type calls
  = Ok (if decide (counted is_pod_ready (now calls) container_type pod) then 1 else 0,
        if decide (timed is_pod_ready container_type pod) then S calls else calls).
Proof.
  intros Hpod. unfold healthy_flink_containers_cnt. simpl.
  rewrite is_healthy_container_labelled by exact Hpod. simpl.
  destruct (decide (counted is_pod_ready (now calls) container_type pod)) as [H|H].
  - rewrite bool_decide_eq_true_2 by exact H. reflexivity.
  - rewrite bool_decide_eq_false_2 by exact H. reflexivity.
Qed.

(** The first pod without the label decides what the count raises. *)
Lemma healthy_flink_containers_cnt_unlabelled
    (before : list V1Pod) (pod : V1Pod) (after : list V1Pod) (calls : nat) :
  labelled before -> label_of pod = None ->
  healthy_flink_containers_cnt is_pod_ready now (before ++ pod :: after)
    container_type calls
  = Raise (missing_label pod).
Proof.
  intros Hbefore Hpod. unfold healthy_flink_containers_cnt.
  rewrite healthy_flink_containers_app.
  destruct (healthy_flink_containers_labelled before calls Hbefore) as (kept & -> & _).
  simpl. rewrite is_healthy_container_unlabelled by exact Hpod. reflexivity.
Qed.

End Count.

(** A list with a pod without the label splits at the first such pod. *)
Lemma first_unlabelled (pods : list V1Pod) :
  ~ labelled pods ->
  exists before pod after,
    pods = before ++ pod :: after /\ labelled before /\ label_of pod = None.
Proof.
  unfold labelled. induction pods as [|pod pods IH]; intros Hnot.
  - destruct Hnot. constructor.
  - destruct (label_of pod) as [label|] eqn:Hlabel.
    + destruct IH as (before & bad & after & -> & Hbefore & Hbad).
      { intros Hrest. apply Hnot. constructor; [rewrite Hlabel; eauto | exact Hrest]. }
      exists (pod :: before), bad, after. split; [reflexivity|].
      split; [|exact Hbad]. constructor; [rewrite Hlabel; eauto | exact Hbefore].
    + exists [], pod, pods. split; [reflexivity|]. split; [constructor | exact Hlabel].
Qed.

(** C9. Among pods that all carry the [flink-container-type] label, the
    count of a list is the count of the pods before a pod, plus one or
    nothing for the pod, plus the count of the pods after it. The pod adds
    one if and only if its label is the type asked for, it is ready, and it
    started more than 60 seconds before the clock reading taken for it,
    which is the first reading the pods before it have not used. A pod
    that started 60 seconds or less before that reading adds nothing, ready
    or not. *)
Theorem pod_counted_iff_typed_ready_and_older_than_a_minute
    (is_pod_ready : V1Pod -> bool) (now : nat -> Z) (container_type : string)
    (before : list V1Pod) (pod : V1Pod) (after : list V1Pod) (calls : nat) :
  let at_pod :=
    (calls + length (filter (timed is_pod_ready container_type) before))%nat in
  let after_pod :=
    if decide (timed is_pod_ready container_type pod) then S at_pod else at_pod in
  labelled (before ++ pod :: after) ->
  exists (counted_before counted_after : Z) (calls_end : nat),
    healthy_flink_containers_cnt is_pod_ready now before container_type calls
    = Ok (counted_before, at_pod)
    /\ healthy_flink_containers_cnt is_pod_ready now after container_type after_pod
       = Ok (counted_after, calls_end)
    /\ (counted is_pod_ready (now at_pod) container_type pod ->
        healthy_flink_containers_cnt is_pod_ready now
          (before ++ pod :: after) container_type calls
        = Ok (counted_before + 1 + counted_after, calls_end))
    /\ (~ counted is_pod_ready (now at_pod) container_type pod ->
        healthy_flink_containers_cnt is_pod_ready now
          (before ++ pod :: after) container_type calls
        = Ok (counted_before + counted_after, calls_end))
    /\ (now at_pod - status_start_time pod <= 60 * 1000000 ->
        healthy_flink_containers_cnt is_pod_ready now
          (before ++ pod :: after) container_type calls
        = Ok (counted_before + counted_after, calls_end)).
Proof.
  intros at_pod after_pod Hall.
  unfold labelled in Hall. apply Forall_app in Hall as [Hbefore Hrest].
  apply Forall_cons in Hrest as [Hpod Hafter].
  destruct (healthy_flink_containers_cnt_labelled is_pod_ready now container_type
              before calls Hbefore) as (counted_before & Hb & _).
  destruct (healthy_flink_containers_cnt_labelled is_pod_ready now container_type
              after after_pod Hafter) as (counted_after & Ha & _).
  fold at_pod in Hb.
  exists counted_before, counted_after. eexists.
  split; [exact Hb|]. split; [exact Ha|].
  assert (Hwhole :
    healthy_flink_containers_cnt is_pod_ready now
      (before ++ pod :: after) container_type calls
    = Ok (counted_before
          + (if decide (counted is_pod_ready (now at_pod) container_type pod)
             then 1 else 0)
          + counted_after,
          (after_pod + length (filter (timed is_pod_ready container_type) after))%nat)).
  { rewrite healthy_flink_containers_cnt_app, Hb. simpl.
    change (pod :: after) with ([pod] ++ after).
    rewrite healthy_flink_containers_cnt_app.
    rewrite healthy_flink_containers_cnt_one by exact Hpod. simpl.
    fold after_pod. rewrite Ha. simpl. do 2 f_equal. lia. }
  assert (Hnot : ~ counted is_pod_ready (now at_pod) container_type pod ->
    healthy_flink_containers_cnt is_pod_ready now
      (before ++ pod :: after) container_type calls
    = Ok (counted_before + counted_after,
          (after_pod + length (filter (timed is_pod_ready container_type) after))%nat)).
  { intros Hc. rewrite Hwhole, decide_False by exact Hc. do 2 f_equal. lia. }
  split; [|split].
  - intros Hc. rewrite Hwhole, decide_True by exact Hc. reflexivity.
  - exact Hnot.
  - intros Hyoung. apply Hnot. intros (_ & _ & Hage). lia.
Qed.

Lemma pod_counted_iff_typed_ready_and_older_than_a_minute_witness :
  ticking 1 - status_start_time young_taskmanager = 50 * 1000000
  /\ healthy_flink_containers_cnt ready_condition ticking
       [old_taskmanager; young_taskmanager; old_jobmanager] "taskmanager" 0
     = Ok (1, 2%nat).
Proof.
  split; [reflexivity|].
  assert (Hall : labelled ([old_taskmanager] ++ young_taskmanager :: [old_jobmanager])).
  { unfold labelled. apply (bool_decide_unpack _). vm_compute. exact I. }
  destruct (pod_counted_iff_typed_ready_and_older_than_a_minute ready_condition ticking
              "taskmanager" [old_taskmanager] young_taskmanager [old_jobmanager] 0%nat
              Hall)
    as (counted_before & counted_after & calls_end & Hb & Ha & _ & _ & Hyoung).
  vm_compute in Hb. vm_compute in Ha.
  injection Hb as <-. injection Ha as <- <-.
  apply Hyoung. vm_compute. discriminate.
Defined.

(** The order of the pods matters: of two ready taskmanagers started 30
    seconds before the count began, the one examined first, after 20
    seconds, is not counted, and the one examined next, after 40 seconds,
    is. *)
Example later_reading_counts_the_pod :
  healthy_flink_containers ready_condition ticking
    [old_taskmanager; young_taskmanager; late_taskmanager] "taskmanager" 0
  = Ok ([old_taskmanager; late_taskmanager], 3%nat).
Proof. vm_compute. reflexivity. Qed.

End HealthyContainers.

(** ** The cleanup of stale Marathon apps *)

Module Cleanup.

Import Marathon Examples.

Section Loop.

Variable get_marathon_services_for_cluster :
  string -> bool -> list (string * string * string).
Variable compose_job_id : string -> string -> string -> string.
Variable remove_iteration_from_job_id : string -> string.
Variable bounce_lock : string -> result unit.

Lemma any_eqb_elem_of (app_id : string) (valid_app_list : list string) :
  any (map (λ deployed_id, String.eqb app_id deployed_id) valid_app_list) = true
  <-> app_id ∈ valid_app_list.
Proof.
  induction valid_app_list as [|v valid IH]; simpl.
  - split; [discriminate | intros H; inversion H].
  - rewrite elem_of_cons, <- IH.
    destruct (String.eqb_spec app_id v) as [->|Hne]; [tauto|].
    split; [tauto | intros [H|H]; [congruence | exact H]].
Qed.

(** The loop only adds [delete_app] calls, and each call it adds is for an
    id of the list that is stale and free. *)
Lemma cleanup_loop_calls (valid_app_list app_ids : list string) (client : MarathonClient) :
  exists calls : list string,
    deleted (fst (cleanup_loop remove_iteration_from_job_id bounce_lock
                    valid_app_list app_ids client))
    = deleted client ++ calls
    /\ forall app_id, app_id ∈ calls ->
         app_id ∈ app_ids
         /\ stale_and_free remove_iteration_from_job_id bounce_lock valid_app_list app_id.
Proof.
  revert client. induction app_ids as [|app_id rest IH]; intros client; simpl.
  - exists []. split; [by rewrite app_nil_r | intros a Ha; inversion Ha].
  - destruct (any (map (λ deployed_id, String.eqb app_id deployed_id) valid_app_list))
      eqn:Hvalid; simpl.
    + destruct (IH client) as (calls & Hcalls & Hsafe).
      exists calls. split; [exact Hcalls|].
      intros a Ha. destruct (Hsafe a Ha). split; [by apply elem_of_cons; right | done].
    + assert (Hstale : app_id ∉ valid_app_list).
      { rewrite <- any_eqb_elem_of, Hvalid. discriminate. }
      destruct (bounce_lock (remove_iteration_from_job_id app_id)) as [[]|e] eqn:Hlock.
      * destruct (IH (delete_app client app_id)) as (calls & Hcalls & Hsafe).
        exists (app_id :: calls). split.
        { rewrite Hcalls. simpl. by rewrite <- app_assoc. }
        intros a [->|Ha]%elem_of_cons.
        { split; [by apply elem_of_cons; left|]. split; [exact Hstale|].
          by rewrite Hlock. }
        destruct (Hsafe a Ha). split; [by apply elem_of_cons; right | done].
      * assert (Hskip : exists calls : list string,
                   deleted (fst (cleanup_loop remove_iteration_from_job_id bounce_lock
                                   valid_app_list rest client))
                   = deleted client ++ calls
                   /\ forall a, a ∈ calls ->
                        a ∈ app_id :: rest
                        /\ stale_and_free remove_iteration_from_job_id bounce_lock
                             valid_app_list a).
        { destruct (IH client) as (calls & Hcalls & Hsafe).
          exists calls. split; [exact Hcalls|].
          intros a Ha. destruct (Hsafe a Ha).
          split; [by apply elem_of_cons; right | done]. }
        destruct e; try exact Hskip;
          (exists []; split; [by rewrite app_nil_r | intros a Ha; inversion Ha]).
Qed.

(** When the lock raises nothing but [IOError], the loop runs to its end
    and deletes every stale and free app of the list, in order. *)
Lemma cleanup_loop_complete (valid_app_list app_ids : list string) (client : MarathonClient) :
  (forall app_id e, app_id ∈ app_ids ->
     bounce_lock (remove_iteration_from_job_id app_id) = Raise e ->
     exists msg, e = IOError msg) ->
  snd (cleanup_loop remove_iteration_from_job_id bounce_lock
         valid_app_list app_ids client) = Ok tt
  /\ deleted (fst (cleanup_loop remove_iteration_from_job_id bounce_lock
                     valid_app_list app_ids client))
     = deleted client
       ++ filter (stale_and_free remove_iteration_from_job_id bounce_lock valid_app_list)
            app_ids.
Proof.
  revert client. induction app_ids as [|app_id rest IH]; intros client Hio; simpl.
  - split; [reflexivity | by rewrite app_nil_r].
  - assert (Hrest : forall a e, a ∈ rest ->
               bounce_lock (remove_iteration_from_job_id a) = Raise e ->
               exists msg, e = IOError msg).
    { intros a e Ha. apply Hio. by apply elem_of_cons; right. }
    rewrite filter_cons.
    destruct (any (map (λ deployed_id, String.eqb app_id deployed_id) valid_app_list))
      eqn:Hvalid; simpl.
    + rewrite decide_False; [by apply IH|].
      intros [Hstale _]. apply Hstale, any_eqb_elem_of, Hvalid.
    + assert (Hstale : app_id ∉ valid_app_list).
      { rewrite <- any_eqb_elem_of, Hvalid. discriminate. }
      destruct (bounce_lock (remove_iteration_from_job_id app_id)) as [[]|e] eqn:Hlock.
      * rewrite decide_True by (split; [exact Hstale | by rewrite Hlock]).
        destruct (IH (delete_app client app_id) Hrest) as [Hend Hcalls].
        split; [exact Hend|]. rewrite Hcalls. simpl. by rewrite <- app_assoc.
      * rewrite decide_False by (intros [_ Hfree]; by rewrite Hlock in Hfree).
        destruct (Hio app_id e (list_elem_of_here _ _) Hlock) as [msg ->].
        by apply IH.
Qed.

(** C10. The [delete_app] calls of a run of [cleanup_apps] are all for ids
    of apps the server listed; none is for an id composed from a service,
    instance and iteration of the cluster configuration; none is for an app
    whose bounce lock raised [IOError]: that app is skipped and the loop goes
    on, so that when the lock raises nothing else the run ends normally
    having deleted exactly the apps that are neither configured nor being
    bounced. *)
Theorem cleanup_apps_spares_configured_and_bounced_apps
    (client : MarathonClient) (soa_dir : string) :
  let run :=
    cleanup_apps get_marathon_services_for_cluster compose_job_id
      remove_iteration_from_job_id bounce_lock client soa_dir in
  let valid_app_list :=
    map (λ '(service, instance, iteration), compose_job_id service instance iteration)
      (get_marathon_services_for_cluster soa_dir true) in
  exists calls : list string,
    deleted (fst run) = deleted client ++ calls
    /\ (forall app_id, app_id ∈ calls -> app_id ∈ map id (list_apps client))
    /\ (forall service instance iteration,
          (service, instance, iteration) ∈ get_marathon_services_for_cluster soa_dir true ->
          compose_job_id service instance iteration ∉ calls)
    /\ (forall app_id msg,
          bounce_lock (remove_iteration_from_job_id app_id) = Raise (IOError msg) ->
          app_id ∉ calls)
    /\ ((forall app_id e,
           app_id ∈ map id (list_apps client) ->
           bounce_lock (remove_iteration_from_job_id app_id) = Raise e ->
           exists msg, e = IOError msg) ->
        snd run = Ok tt
        /\ calls
           = filter (stale_and_free remove_iteration_from_job_id bounce_lock valid_app_list)
               (map id (list_apps client))).
Proof.
  intros run valid_app_list. unfold cleanup_apps in run. fold valid_app_list in run.
  destruct (cleanup_loop_calls valid_app_list (map id (list_apps client)) client)
    as (calls & Hcalls & Hsafe).
  exists calls. split; [exact Hcalls|].
  split; [intros a Ha; apply (Hsafe a Ha)|].
  split.
  { intros service instance iteration Hin Hcall.
    destruct (Hsafe _ Hcall) as [_ [Hstale _]]. apply Hstale.
    unfold valid_app_list. apply list_elem_of_fmap.
    exists (service, instance, iteration). split; [reflexivity | exact Hin]. }
  split.
  { intros a msg Hlock Hcall.
    destruct (Hsafe _ Hcall) as [_ [_ Hfree]]. rewrite Hlock in Hfree. discriminate. }
  intros Hio.
  destruct (cleanup_loop_complete valid_app_list (map id (list_apps client)) client Hio)
    as [Hend Hall].
  split; [exact Hend|].
  unfold run in Hcalls. rewrite Hall in Hcalls. exact (eq_sym (app_inv_head _ _ _ Hcalls)).
Qed.

End Loop.

(** A run: [web.main.v2] is configured and stays, [api.canary.v7] is being
    bounced and stays, [web.main.v1] is deleted. *)
Example cleanup_apps_example :
  cleanup_apps example_services example_compose_job_id example_remove_iteration
    example_bounce_lock example_client "/nail/etc/services"
  = ({| apps := [ {| id := "web.main.v2" |}; {| id := "api.canary.v7" |} ];
        deleted := ["web.main.v1"] |}, Ok tt).
Proof. vm_compute. reflexivity. Qed.

End Cleanup.

(** ** More on the count of healthy containers *)

Module ContainerCounts.

Import Flink Observation Examples HealthyContainers.

Section Counts.

Variable is_pod_ready : V1Pod -> bool.

Lemma healthy_flink_containers_length (now : nat -> Z) (pods kept : list V1Pod)
    (kind : string) (calls calls' : nat) :
  healthy_flink_containers is_pod_ready now pods kind calls = Ok (kept, calls') ->
  (length kept <= length pods)%nat.
Proof.
  revert kept calls calls'. induction pods as [|pod pods IH]; intros kept calls calls'; simpl.
  - intros [= <- _]. reflexivity.
  - destruct (is_healthy_container is_pod_ready now kind pod calls) as [[keep calls0]|];
      simpl; [|discriminate].
    destruct (healthy_flink_containers is_pod_ready now pods kind calls0)
      as [[rest calls1]|] eqn:Hrest; simpl; [|discriminate].
    intros [= <- _]. specialize (IH rest _ _ Hrest). destruct keep; simpl; lia.
Qed.

(** The clock is read for a pod in the count of one type only. *)
Lemma timed_one_kind (kind1 kind2 : string) (pod : V1Pod) :
  kind1 <> kind2 ->
  timed is_pod_ready kind1 pod -> ~ timed is_pod_ready kind2 pod.
Proof. intros Hne [H1 _] [H2 _]. congruence. Qed.

Lemma filter_three_exclusive {A : Type} (P1 P2 P3 : A -> Prop)
    `{!forall x, Decision (P1 x)} `{!forall x, Decision (P2 x)}
    `{!forall x, Decision (P3 x)} (l : list A) :
  (forall x, P1 x -> ~ P2 x) -> (forall x, P1 x -> ~ P3 x) -> (forall x, P2 x -> ~ P3 x) ->
  (length (filter P1 l) + length (filter P2 l) + length (filter P3 l) <= length l)%nat.
Proof.
  intros H12 H13 H23. induction l as [|x l IH]; [reflexivity|].
  rewrite !filter_cons.
  destruct (decide (P1 x)) as [p1|]; destruct (decide (P2 x)) as [p2|];
    destruct (decide (P3 x)) as [p3|]; simpl; try lia.
  - destruct (H12 x p1 p2).
  - destruct (H12 x p1 p2).
  - destruct (H13 x p1 p3).
  - destruct (H23 x p2 p3).
Qed.

(** With every reading of one clock at or after the reading of the same
    number of another, the comprehension keeps at least as many pods; both
    runs read the clock the same number of times. *)
Lemma healthy_flink_containers_later (now later : nat -> Z) (pods : list V1Pod)
    (kind : string) (calls : nat) :
  labelled pods -> (forall call, now call <= later call) ->
  exists kept kept' calls',
    healthy_flink_containers is_pod_ready now pods kind calls = Ok (kept, calls')
    /\ healthy_flink_containers is_pod_ready later pods kind calls = Ok (kept', calls')
    /\ (length kept <= length kept')%nat.
Proof.
  intros Hall Hlater. revert calls.
  induction Hall as [|pod pods Hpod _ IH]; intros calls; simpl.
  - exists [], [], calls. repeat split; reflexivity.
  - rewrite !is_healthy_container_labelled by exact Hpod. simpl.
    destruct (IH (if decide (timed is_pod_ready kind pod) then S calls else calls))
      as (kept & kept' & calls' & -> & -> & Hlen).
    simpl. do 3 eexists. split; [reflexivity|]. split; [reflexivity|].
    destruct (decide (counted is_pod_ready (now calls) kind pod)) as [Hc|Hc].
    + rewrite bool_decide_eq_true_2 by exact Hc.
      rewrite bool_decide_eq_true_2; [simpl; lia|].
      destruct Hc as (Hlabel & Hready & Hage). repeat split; try assumption.
      specialize (Hlater calls). lia.
    + rewrite bool_decide_eq_false_2 by exact Hc.
      destruct (bool_decide _); simpl; lia.
Qed.

End Counts.

(** X1. A count that is returned lies between zero and the number of pods
    given. *)
Theorem healthy_count_within_pods
    (is_pod_ready : V1Pod -> bool) (now : nat -> Z) (pods : list V1Pod) (kind : string)
    (calls : nat) (n : Z) (calls' : nat) :
  healthy_flink_containers_cnt is_pod_ready now pods kind calls = Ok (n, calls') ->
  0 <= n <= Z.of_nat (length pods).
Proof.
  unfold healthy_flink_containers_cnt.
  destruct (healthy_flink_containers is_pod_ready now pods kind calls)
    as [[kept calls0]|] eqn:Hkept; simpl; [|discriminate].
  intros [= <- _]. apply healthy_flink_containers_length in Hkept. lia.
Qed.

Lemma healthy_count_within_pods_witness : 0 <= 1 <= Z.of_nat (length
    [old_taskmanager; young_taskmanager; old_jobmanager]).
Proof.
  apply (healthy_count_within_pods ready_condition ticking
           [old_taskmanager; young_taskmanager; old_jobmanager] "taskmanager"
           0%nat 1 2%nat).
  vm_compute. reflexivity.
Defined.

(** X2. The count raises exactly when some pod has no
    [flink-container-type] label, whatever the other pods, the type asked
    for and the clock. The first such pod of the list decides what is
    raised: [TypeError] when it has no labels at all, the [KeyError] of the
    label when it has other labels. Nothing else is raised. *)
Theorem healthy_count_raises_iff_label_missing
    (is_pod_ready : V1Pod -> bool) (now : nat -> Z) (pods : list V1Pod) (kind : string)
    (calls : nat) :
  (raised (healthy_flink_containers_cnt is_pod_ready now pods kind calls) = true
   <-> exists pod, pod ∈ pods /\ label_of pod = None)
  /\ (forall before pod after,
        pods = before ++ pod :: after -> labelled before ->
        (metadata_labels pod = None ->
         healthy_flink_containers_cnt is_pod_ready now pods kind calls
         = Raise (TypeError not_subscriptable))
        /\ (forall labels,
              metadata_labels pod = Some labels ->
              labels !! "flink-container-type" = None ->
              healthy_flink_containers_cnt is_pod_ready now pods kind calls
              = Raise (KeyError "flink-container-type")))
  /\ (forall e,
        healthy_flink_containers_cnt is_pod_ready now pods kind calls = Raise e ->
        e = TypeError not_subscriptable \/ e = KeyError "flink-container-type").
Proof.
  split; [|split].
  - destruct (decide (labelled pods)) as [Hall|Hnot].
    + destruct (healthy_flink_containers_cnt_labelled is_pod_ready now kind pods calls Hall)
        as (n & -> & _). simpl.
      split; [discriminate|].
      intros (pod & Hin & Hnone). unfold labelled in Hall.
      rewrite Forall_forall in Hall. destruct (Hall pod Hin) as [label Hlabel]. congruence.
    + destruct (first_unlabelled pods Hnot) as (before & pod & after & -> & Hb & Hpod).
      rewrite healthy_flink_containers_cnt_unlabelled by assumption. simpl.
      split; [|reflexivity]. intros _. exists pod. split; [|exact Hpod].
      apply elem_of_app. right. left.
  - intros before pod after -> Hbefore. split.
    + intros Hmeta.
      rewrite healthy_flink_containers_cnt_unlabelled;
        [|exact Hbefore | unfold label_of; by rewrite Hmeta].
      unfold missing_label. by rewrite Hmeta.
    + intros labels Hmeta Hnone.
      rewrite healthy_flink_containers_cnt_unlabelled;
        [|exact Hbefore | unfold label_of; by rewrite Hmeta].
      unfold missing_label. by rewrite Hmeta.
  - intros e. destruct (decide (labelled pods)) as [Hall|Hnot].
    + destruct (healthy_flink_containers_cnt_labelled is_pod_ready now kind pods calls Hall)
        as (n & -> & _). discriminate.
    + destruct (first_unlabelled pods Hnot) as (before & pod & after & -> & Hb & Hpod).
      rewrite healthy_flink_containers_cnt_unlabelled by assumption.
      intros [= <-]. unfold missing_label. destruct (metadata_labels pod); auto.
Qed.

(** A pod without labels before a pod with other labels, and the other way
    round. *)
Example pod_without_labels_raises_type_error :
  healthy_flink_containers_cnt ready_condition ticking
    [old_taskmanager; bare_pod; mislabelled_pod] "taskmanager" 0
  = Raise (TypeError not_subscriptable).
Proof. vm_compute. reflexivity. Qed.

Example pod_with_other_labels_raises_key_error :
  healthy_flink_containers_cnt ready_condition ticking
    [old_taskmanager; mislabelled_pod; bare_pod] "taskmanager" 0
  = Raise (KeyError "flink-container-type").
Proof. vm_compute. reflexivity. Qed.

(** X3. Among pods that all carry the label, the healthy supervisors,
    jobmanagers and taskmanagers the service check counts are disjoint: the
    three counts add up to at most the number of pods, whenever each of
    them reads the clock. *)
Theorem healthy_counts_of_three_kinds_are_disjoint
    (is_pod_ready : V1Pod -> bool) (now : nat -> Z) (pods : list V1Pod)
    (calls1 calls2 calls3 : nat) :
  labelled pods ->
  exists supervisors jobmanagers taskmanagers : Z * nat,
    healthy_flink_containers_cnt is_pod_ready now pods "supervisor" calls1
    = Ok supervisors
    /\ healthy_flink_containers_cnt is_pod_ready now pods "jobmanager" calls2
       = Ok jobmanagers
    /\ healthy_flink_containers_cnt is_pod_ready now pods "taskmanager" calls3
       = Ok taskmanagers
    /\ fst supervisors + fst jobmanagers + fst taskmanagers <= Z.of_nat (length pods).
Proof.
  intros Hall.
  destruct (healthy_flink_containers_cnt_labelled is_pod_ready now "supervisor"
              pods calls1 Hall) as (s & -> & Hs).
  destruct (healthy_flink_containers_cnt_labelled is_pod_ready now "jobmanager"
              pods calls2 Hall) as (j & -> & Hj).
  destruct (healthy_flink_containers_cnt_labelled is_pod_ready now "taskmanager"
              pods calls3 Hall) as (t & -> & Ht).
  do 3 eexists. repeat (split; [reflexivity|]). simpl.
  pose proof (filter_three_exclusive
                (timed is_pod_ready "supervisor")
                (timed is_pod_ready "jobmanager")
                (timed is_pod_ready "taskmanager") pods) as H.
  cut (length (filter (timed is_pod_ready "supervisor") pods)
       + length (filter (timed is_pod_ready "jobmanager") pods)
       + length (filter (timed is_pod_ready "taskmanager") pods)
       <= length pods)%nat; [lia|].
  apply H; intros pod; apply timed_one_kind; discriminate.
Qed.

Lemma healthy_counts_of_three_kinds_are_disjoint_witness :
  exists supervisors jobmanagers taskmanagers : Z * nat,
    healthy_flink_containers_cnt ready_condition ticking
      [old_taskmanager; young_taskmanager; old_jobmanager] "supervisor" 0
    = Ok supervisors
    /\ healthy_flink_containers_cnt ready_condition ticking
         [old_taskmanager; young_taskmanager; old_jobmanager] "jobmanager" 0
       = Ok jobmanagers
    /\ healthy_flink_containers_cnt ready_condition ticking
         [old_taskmanager; young_taskmanager; old_jobmanager] "taskmanager" 1
       = Ok taskmanagers
    /\ fst supervisors + fst jobmanagers + fst taskmanagers
       <= Z.of_nat (length [old_taskmanager; young_taskmanager; old_jobmanager]).
Proof.
  apply (healthy_counts_of_three_kinds_are_disjoint ready_condition ticking
           [old_taskmanager; young_taskmanager; old_jobmanager] 0 0 1).
  unfold labelled. apply (bool_decide_unpack _). vm_compute. exact I.
Defined.

(** X4. Time only adds healthy containers: among pods that all carry the
    label and with readiness unchanged, a count whose every clock reading
    is at or after the reading of the same number of another count is at
    least that other count. *)
Theorem healthy_count_grows_with_time
    (is_pod_ready : V1Pod -> bool) (now later : nat -> Z) (pods : list V1Pod)
    (kind : string) (calls : nat) :
  labelled pods -> (forall call, now call <= later call) ->
  exists (n m : Z) (calls' : nat),
    healthy_flink_containers_cnt is_pod_ready now pods kind calls = Ok (n, calls')
    /\ healthy_flink_containers_cnt is_pod_ready later pods kind calls = Ok (m, calls')
    /\ n <= m.
Proof.
  intros Hall Hlater. unfold healthy_flink_containers_cnt.
  destruct (healthy_flink_containers_later is_pod_ready now later pods kind calls
              Hall Hlater) as (kept & kept' & calls' & -> & -> & Hlen).
  simpl. do 3 eexists. repeat (split; [reflexivity|]). lia.
Qed.

Lemma healthy_count_grows_with_time_witness :
  exists (n m : Z) (calls' : nat),
    healthy_flink_containers_cnt ready_condition ticking
      [old_taskmanager; young_taskmanager] "taskmanager" 0 = Ok (n, calls')
    /\ healthy_flink_containers_cnt ready_condition ticking_later
         [old_taskmanager; young_taskmanager] "taskmanager" 0 = Ok (m, calls')
    /\ n <= m.
Proof.
  apply (healthy_count_grows_with_time ready_condition ticking ticking_later
           [old_taskmanager; young_taskmanager] "taskmanager" 0).
  - unfold labelled. apply (bool_decide_unpack _). vm_compute. exact I.
  - intros call. unfold ticking_later. lia.
Defined.

End ContainerCounts.

(** ** The event of the service check *)

Module ServiceHealth.

Import Flink Observation Examples HealthyContainers.

(** X6. Only [ValueError] is caught: any other exception of the dashboard
    call leaves [check_under_registered_taskmanagers] as it is, and the
    service check over pods that all carry the label raises it too, so that
    no event is sent. *)
Theorem other_dashboard_exceptions_escape
    (cfg : FlinkDeploymentConfig) (expected : Z) (e : exn) :
  (forall msg, e <> ValueError msg) ->
  check_under_registered_taskmanagers cfg expected (Raise e) = Raise e
  /\ forall (is_pod_ready : V1Pod -> bool) (now : nat -> Z)
       (filter_pods : list V1Pod -> string -> string -> list V1Pod)
       (check_under_replication : FlinkDeploymentConfig -> Z -> Z -> string -> bool * string)
       (all_pods : list V1Pod) (calls : nat),
      labelled (filter_pods all_pods (service cfg) (instance cfg)) ->
      check_flink_service_health is_pod_ready now filter_pods check_under_replication
        cfg all_pods (Raise e) calls = Raise e.
Proof.
  intros Hother.
  split; [apply ThresholdFacts.check_of_exception, Hother|].
  intros is_pod_ready now filter_pods cur all_pods calls Hall.
  unfold check_flink_service_health.
  destruct (healthy_flink_containers_cnt_labelled is_pod_ready now "supervisor"
              _ calls Hall) as (n1 & -> & _). simpl.
  destruct (healthy_flink_containers_cnt_labelled is_pod_ready now "jobmanager"
              _ (calls + length (filter (timed is_pod_ready "supervisor")
                                   (filter_pods all_pods (service cfg) (instance cfg))))
              Hall) as (n2 & -> & _). simpl.
  match goal with
  | |- context [healthy_flink_containers_cnt _ _ _ "taskmanager" ?c] =>
      destruct (healthy_flink_containers_cnt_labelled is_pod_ready now "taskmanager"
                  _ c Hall) as (n3 & -> & _)
  end. simpl.
  rewrite ThresholdFacts.check_of_exception by exact Hother. reflexivity.
Qed.

Lemma other_dashboard_exceptions_escape_witness :
  check_under_registered_taskmanagers example_config 10 (Raise (KeyError "taskmanagers"))
  = Raise (KeyError "taskmanagers")
  /\ forall (is_pod_ready : V1Pod -> bool) (now : nat -> Z)
       (filter_pods : list V1Pod -> string -> string -> list V1Pod)
       (check_under_replication : FlinkDeploymentConfig -> Z -> Z -> string -> bool * string)
       (all_pods : list V1Pod) (calls : nat),
      labelled (filter_pods all_pods (service example_config) (instance example_config)) ->
      check_flink_service_health is_pod_ready now filter_pods check_under_replication
        example_config all_pods (Raise (KeyError "taskmanagers")) calls
      = Raise (KeyError "taskmanagers").
Proof.
  apply (other_dashboard_exceptions_escape example_config 10 (KeyError "taskmanagers")).
  discriminate.
Defined.

(** X7. Over pods that all carry the label and with a dashboard check that
    returned, the service check sends one event. The healthy supervisors,
    jobmanagers and taskmanagers are counted in that order, each count
    reading the clock from where the one before left it. The output of the
    event is the outputs of the supervisor, jobmanager, taskmanager and
    dashboard checks in that order with the delimiter in between, and its
    status is critical exactly when one of the four is unhealthy. One
    supervisor and one jobmanager are expected; the taskmanagers expected
    are the [instances] of the [taskmanager] section, and 10 when the
    section or that key is missing. *)
Theorem service_health_event
    (is_pod_ready : V1Pod -> bool) (now : nat -> Z)
    (filter_pods : list V1Pod -> string -> string -> list V1Pod)
    (check_under_replication : FlinkDeploymentConfig -> Z -> Z -> string -> bool * string)
    (cfg : FlinkDeploymentConfig) (all_pods : list V1Pod)
    (fetched : result (gmap string Z)) (registered : bool * string) (calls : nat) :
  let si_pods := filter_pods all_pods (service cfg) (instance cfg) in
  let expected :=
    match config_dict cfg !! "taskmanager" with
    | Some section => default 10 (section !! "instances")
    | None => 10
    end in
  labelled si_pods ->
  check_under_registered_taskmanagers cfg expected fetched = Ok registered ->
  exists (supervisors jobmanagers taskmanagers : Z) (calls1 calls2 calls3 : nat),
    healthy_flink_containers_cnt is_pod_ready now si_pods "supervisor" calls
    = Ok (supervisors, calls1)
    /\ healthy_flink_containers_cnt is_pod_ready now si_pods "jobmanager" calls1
       = Ok (jobmanagers, calls2)
    /\ healthy_flink_containers_cnt is_pod_ready now si_pods "taskmanager" calls2
       = Ok (taskmanagers, calls3)
    /\ let supervisor := check_under_replication cfg 1 supervisors "supervisor" in
       let jobmanager := check_under_replication cfg 1 jobmanagers "jobmanager" in
       let taskmanager :=
         check_under_replication cfg expected taskmanagers "taskmanager" in
       check_flink_service_health is_pod_ready now filter_pods check_under_replication
         cfg all_pods fetched calls
       = Ok (if fst supervisor || fst jobmanager || fst taskmanager || fst registered
             then CRITICAL else OK,
             snd supervisor +:+ delimiter +:+ snd jobmanager +:+ delimiter
             +:+ snd taskmanager +:+ delimiter +:+ snd registered).
Proof.
  intros si_pods expected Hall Hreg.
  destruct (healthy_flink_containers_cnt_labelled is_pod_ready now "supervisor"
              si_pods calls Hall) as (n1 & H1 & _).
  set (calls1 := (calls + length (filter (timed is_pod_ready "supervisor") si_pods))%nat)
    in H1.
  destruct (healthy_flink_containers_cnt_labelled is_pod_ready now "jobmanager"
              si_pods calls1 Hall) as (n2 & H2 & _).
  set (calls2 := (calls1 + length (filter (timed is_pod_ready "jobmanager") si_pods))%nat)
    in H2.
  destruct (healthy_flink_containers_cnt_labelled is_pod_ready now "taskmanager"
              si_pods calls2 Hall) as (n3 & H3 & _).
  exists n1, n2, n3, calls1, calls2. eexists.
  split; [exact H1|]. split; [exact H2|]. split; [exact H3|].
  intros supervisor jobmanager taskmanager.
  unfold check_flink_service_health. fold si_pods.
  rewrite H1. simpl. rewrite H2. simpl. rewrite H3. simpl.
  assert (Hexp : get (get (config_dict cfg) "taskmanager" {["instances" := 10]})
                   "instances" 10 = expected).
  { unfold expected, get. destruct (config_dict cfg !! "taskmanager"); reflexivity. }
  rewrite Hexp, Hreg. simpl.
  fold supervisor jobmanager taskmanager.
  destruct (fst supervisor), (fst jobmanager), (fst taskmanager), (fst registered);
    reflexivity.
Qed.

Lemma service_health_event_witness :
  exists output,
    check_flink_service_health ready_condition ticking example_filter_pods
      example_check_under_replication example_config
      [old_taskmanager; young_taskmanager; old_jobmanager] (Ok (overview_of 10)) 0
    = Ok (CRITICAL, output).
Proof.
  destruct (service_health_event ready_condition ticking example_filter_pods
              example_check_under_replication example_config
              [old_taskmanager; young_taskmanager; old_jobmanager] (Ok (overview_of 10))
              (false, reported_output example_config 10 10 50) 0)
    as (n1 & n2 & n3 & c1 & c2 & c3 & H1 & H2 & H3 & Hevent).
  - unfold labelled. apply (bool_decide_unpack _). vm_compute. exact I.
  - vm_compute. reflexivity.
  - vm_compute in H1. injection H1 as <- <-.
    vm_compute in H2. injection H2 as <- <-.
    vm_compute in H3. injection H3 as <- <-.
    eexists. rewrite Hevent. vm_compute. reflexivity.
Defined.

End ServiceHealth.

(** ** Runs of the cleanup *)

Module CleanupRuns.

Import Marathon Examples Cleanup.

Section Runs.

Variable get_marathon_services_for_cluster :
  string -> bool -> list (string * string * string).
Variable compose_job_id : string -> string -> string -> string.
Variable remove_iteration_from_job_id : string -> string.
Variable bounce_lock : string -> result unit.

Local Abbreviation loop := (cleanup_loop remove_iteration_from_job_id bounce_lock).

(** A list that runs to its end can be run in two parts. *)
Lemma cleanup_loop_app (valid_app_list first rest : list string) (client : MarathonClient) :
  snd (loop valid_app_list first client) = Ok tt ->
  loop valid_app_list (first ++ rest) client
  = loop valid_app_list rest (fst (loop valid_app_list first client)).
Proof.
  revert client. induction first as [|app_id first IH]; intros client; simpl; [done|].
  destruct (any (map (λ deployed_id, String.eqb app_id deployed_id) valid_app_list));
    simpl; [apply IH|].
  destruct (bounce_lock (remove_iteration_from_job_id app_id)) as [[]|e]; [apply IH|].
  destruct e; try apply IH; discriminate.
Qed.

(** X8. An exception of the bounce lock other than [IOError] ends the run:
    when the apps listed before the failing one raise nothing but [IOError],
    the run raises that exception, the stale and free apps before it have
    been deleted, and no app after it is looked at. *)
Theorem cleanup_stops_at_other_exception
    (client : MarathonClient) (soa_dir : string)
    (before : list string) (app_id : string) (after : list string) (e : exn) :
  let run :=
    cleanup_apps get_marathon_services_for_cluster compose_job_id
      remove_iteration_from_job_id bounce_lock client soa_dir in
  let valid_app_list :=
    map (λ '(service, instance, iteration), compose_job_id service instance iteration)
      (get_marathon_services_for_cluster soa_dir true) in
  map id (list_apps client) = before ++ app_id :: after ->
  (forall b e', b ∈ before ->
     bounce_lock (remove_iteration_from_job_id b) = Raise e' ->
     exists msg, e' = IOError msg) ->
  app_id ∉ valid_app_list ->
  bounce_lock (remove_iteration_from_job_id app_id) = Raise e ->
  (forall msg, e <> IOError msg) ->
  snd run = Raise e
  /\ deleted (fst run)
     = deleted client
       ++ filter (stale_and_free remove_iteration_from_job_id bounce_lock valid_app_list)
            before.
Proof.
  intros run valid_app_list Hids Hbefore Hstale Hlock Hother.
  unfold run, cleanup_apps. fold valid_app_list. rewrite Hids.
  destruct (cleanup_loop_complete get_marathon_services_for_cluster compose_job_id
              remove_iteration_from_job_id bounce_lock
              valid_app_list before client Hbefore) as [Hend Hdel].
  rewrite cleanup_loop_app by exact Hend. simpl.
  destruct (any (map (λ deployed_id, String.eqb app_id deployed_id) valid_app_list))
    eqn:Hvalid.
  { destruct Hstale.
    by apply (any_eqb_elem_of get_marathon_services_for_cluster compose_job_id
                remove_iteration_from_job_id bounce_lock). }
  simpl. rewrite Hlock.
  destruct e; try (split; [reflexivity | exact Hdel]).
  destruct (Hother msg eq_refl).
Qed.

End Runs.

Lemma cleanup_stops_at_other_exception_witness :
  snd (cleanup_apps example_services example_compose_job_id example_remove_iteration
         broken_bounce_lock example_client "/nail/etc/services")
  = Raise (ValueError "embedded null byte")
  /\ deleted (fst (cleanup_apps example_services example_compose_job_id
                     example_remove_iteration broken_bounce_lock example_client
                     "/nail/etc/services"))
     = deleted example_client
       ++ filter (stale_and_free example_remove_iteration broken_bounce_lock
                    (map (λ '(service, instance, iteration),
                            example_compose_job_id service instance iteration)
                       (example_services "/nail/etc/services" true)))
            ["web.main.v2"; "web.main.v1"].
Proof.
  apply (cleanup_stops_at_other_exception example_services example_compose_job_id
           example_remove_iteration broken_bounce_lock example_client
           "/nail/etc/services" ["web.main.v2"; "web.main.v1"] "api.canary.v7" []
           (ValueError "embedded null byte")).
  - reflexivity.
  - intros b e' Hb Hlock. exfalso.
    repeat (apply elem_of_cons in Hb as [->|Hb]; [vm_compute in Hlock; discriminate|]).
    inversion Hb.
  - apply (bool_decide_unpack _). vm_compute. exact I.
  - reflexivity.
  - discriminate.
Defined.

End CleanupRuns.

(** ** The reports read from Splunk *)

Module SplunkReports.

Import Rightsizer Reports.

Lemma split_on_cons (sep : ascii) (s : string) :
  exists piece pieces, split_on sep s = piece :: pieces.
Proof.
  induction s as [|c s (piece & pieces & IH)]; simpl; [eauto|].
  destruct (Ascii.eqb c sep); [eauto|]. rewrite IH. eauto.
Qed.

(** A string without the separator is its own single piece. *)
Lemma split_on_absent (sep : ascii) (s : string) :
  occurs sep s = false -> split_on sep s = [s].
Proof.
  induction s as [|c s IH]; simpl; [reflexivity|].
  intros [Hc Hs]%orb_false_iff. rewrite Hc, IH by exact Hs. reflexivity.
Qed.

(** Joining the pieces with the separator gives the string back. *)
Lemma join_split_on (sep : ascii) (s : string) :
  join (String sep "") (split_on sep s) = s.
Proof.
  induction s as [|c s IH]; simpl; [reflexivity|].
  destruct (Ascii.eqb_spec c sep) as [->|Hne].
  - destruct (split_on_cons sep s) as (piece & pieces & Hsplit).
    rewrite Hsplit in *.
    change (join (String sep "") ("" :: piece :: pieces))
      with (String sep (join (String sep "") (piece :: pieces))).
    by rewrite IH.
  - destruct (split_on_cons sep s) as (piece & pieces & Hsplit).
    rewrite Hsplit in *. destruct pieces as [|piece' pieces].
    + simpl in *. by rewrite IH.
    + change (join (String sep "") (String c piece :: piece' :: pieces))
        with (String c (join (String sep "") (piece :: piece' :: pieces))).
      by rewrite IH.
Qed.

Section Loop.

Variable resource_type : string.

Local Abbreviation entry := (report_entry resource_type).
Local Abbreviation loop := (services_to_update resource_type).

(** A criteria that no line of the list has keeps its entry. *)
Lemma services_to_update_other (lines : list (gmap string json))
    (acc report : gmap string (gmap string json)) (criteria : string) :
  loop lines acc = Return report ->
  (forall d serv, d ∈ lines -> entry d <> Return (criteria, serv)) ->
  report !! criteria = acc !! criteria.
Proof.
  revert acc. induction lines as [|d lines IH]; intros acc; simpl.
  - intros [= <-] _. reflexivity.
  - destruct (entry d) as [[c serv]|] eqn:Hentry; simpl; [|discriminate].
    intros Hloop Hnone. rewrite (IH _ Hloop).
    + apply lookup_insert_ne. intros ->. apply (Hnone d serv); [left | exact Hentry].
    + intros d' serv' Hin. apply Hnone. by right.
Qed.

(** Every entry of the report was there before or comes from a line. *)
Lemma services_to_update_lookup (lines : list (gmap string json))
    (acc report : gmap string (gmap string json)) (criteria : string)
    (serv : gmap string json) :
  loop lines acc = Return report ->
  report !! criteria = Some serv ->
  acc !! criteria = Some serv
  \/ exists d, d ∈ lines /\ entry d = Return (criteria, serv).
Proof.
  revert acc. induction lines as [|d lines IH]; intros acc; simpl.
  - intros [= <-] Hlook. by left.
  - destruct (entry d) as [[c serv']|] eqn:Hentry; simpl; [|discriminate].
    intros Hloop Hlook. destruct (IH _ Hloop Hlook) as [Hacc|(d' & Hin & Hd')].
    + destruct (decide (c = criteria)) as [->|Hne].
      * rewrite lookup_insert_eq in Hacc. injection Hacc as ->.
        right. exists d. split; [left | exact Hentry].
      * rewrite lookup_insert_ne in Hacc by exact Hne. by left.
    + right. exists d'. split; [by right | exact Hd'].
Qed.

(** A list of lines that all give an entry gives a report. *)
Lemma services_to_update_returns (lines : list (gmap string json))
    (acc : gmap string (gmap string json)) :
  (forall d, d ∈ lines -> thrown (entry d) = false) ->
  exists report, loop lines acc = Return report.
Proof.
  revert acc. induction lines as [|d lines IH]; intros acc Hall; simpl; [eauto|].
  pose proof (Hall d (list_elem_of_here _ _)) as Hd.
  destruct (entry d) as [[c serv]|]; [|discriminate]. simpl.
  apply IH. intros d' Hin. apply Hall. by right.
Qed.

Lemma services_to_update_app (first rest : list (gmap string json))
    (acc middle : gmap string (gmap string json)) :
  loop first acc = Return middle ->
  loop (first ++ rest) acc = loop rest middle.
Proof.
  revert acc. induction first as [|d first IH]; intros acc; simpl.
  - by intros [= <-].
  - destruct (entry d) as [[c serv]|]; simpl; [apply IH | discriminate].
Qed.

Lemma services_to_update_keeps (lines : list (gmap string json))
    (acc report : gmap string (gmap string json)) (criteria : string) :
  loop lines acc = Return report ->
  is_Some (acc !! criteria) -> is_Some (report !! criteria).
Proof.
  revert acc. induction lines as [|d lines IH]; intros acc; simpl.
  - by intros [= <-].
  - destruct (entry d) as [[c serv]|]; simpl; [|discriminate].
    intros Hloop Hacc. apply (IH _ Hloop). rewrite lookup_insert_is_Some.
    destruct (decide (c = criteria)); [by left | by right].
Qed.

Lemma services_to_update_has (lines : list (gmap string json))
    (acc report : gmap string (gmap string json)) (d : gmap string json)
    (criteria : string) (serv : gmap string json) :
  loop lines acc = Return report ->
  d ∈ lines -> entry d = Return (criteria, serv) ->
  is_Some (report !! criteria).
Proof.
  revert acc. induction lines as [|d' lines IH]; intros acc; simpl.
  - intros _ Hin. inversion Hin.
  - destruct (entry d') as [[c serv']|] eqn:Hentry; simpl; [|discriminate].
    intros Hloop [->|Hin]%elem_of_cons Hd.
    + rewrite Hd in Hentry. injection Hentry as -> ->.
      apply (services_to_update_keeps _ _ _ _ Hloop). rewrite lookup_insert_eq. eauto.
    + apply (IH _ Hloop Hin Hd).
Qed.

End Loop.

Ltac entry_step H :=
  match type of H with
  | context [and_then ?r _] =>
      let E := fresh "E" in destruct r eqn:E; simpl in H; [|discriminate H]
  end.

Lemma subscript_inv (j : json) (key : string) (v : json) :
  subscript j key = Return v ->
  exists members, j = JObj members /\ members !! key = Some v.
Proof.
  destruct j; simpl; try discriminate.
  destruct (members !! key) eqn:E; [|discriminate]. intros [= <-]. eauto.
Qed.

(** What a line that gives an entry holds, and the entry it gives. *)
Lemma report_entry_inv (resource_type : string) (d : gmap string json)
    (criteria : string) (serv : gmap string json) :
  report_entry resource_type d = Return (criteria, serv) ->
  exists members service cluster instance owner time date,
    d !! "result" = Some (JObj members)
    /\ members !! "criteria" = Some (JStr criteria)
    /\ split_on " " criteria !! 0%nat = Some service
    /\ split_on " " criteria !! 1%nat = Some cluster
    /\ split_on " " criteria !! 2%nat = Some instance
    /\ members !! "service_owner" = Some owner
    /\ members !! "_time" = Some (JStr time)
    /\ split_on " " time !! 0%nat = Some date
    /\ ((resource_type = "cpu"
         /\ exists cpus old_cpus,
             members !! "suggested_cpus" = Some cpus
             /\ members !! "current_cpus" = Some old_cpus
             /\ serv = <["old_cpus" := old_cpus]>
                         (<["cpus" := cpus]>
                            (base_entry members service cluster instance owner date)))
        \/ (resource_type = "mem"
            /\ exists mem old_mem,
                members !! "suggested_mem" = Some mem
                /\ members !! "mem" = Some old_mem
                /\ serv = <["old_mem" := old_mem]>
                            (<["mem" := mem]>
                               (base_entry members service cluster instance owner date)))
        \/ (resource_type <> "cpu" /\ resource_type <> "mem"
            /\ serv = base_entry members service cluster instance owner date)).
Proof.
  unfold report_entry. intros H.
  destruct (d !! "result") as [result|]; [|discriminate].
  do 11 entry_step H.
  apply subscript_inv in E as (members & -> & Hcriteria).
  destruct a as [| | | |key| |]; simpl in E0; try discriminate.
  injection E0 as <-.
  apply subscript_inv in E4 as (? & [= <-] & Howner).
  apply subscript_inv in E5 as (? & [= <-] & Htime).
  destruct a5 as [| | | |time| |]; simpl in E6; try discriminate.
  injection E6 as <-.
  simpl in E8, E9. injection E8 as <-. injection E9 as <-.
  unfold index in E1, E2, E3, E7.
  destruct (split_on " " key !! 0%nat) as [service|] eqn:H0; [|discriminate].
  destruct (split_on " " key !! 1%nat) as [cluster|] eqn:H1; [|discriminate].
  destruct (split_on " " key !! 2%nat) as [instance|] eqn:H2; [|discriminate].
  destruct (split_on " " time !! 0%nat) as [date|] eqn:H3; [|discriminate].
  injection E1 as <-. injection E2 as <-. injection E3 as <-. injection E7 as <-.
  exists members, service, cluster, instance, a4, time, date.
  fold (base_entry members service cluster instance a4 date) in H.
  destruct (String.eqb_spec resource_type "cpu") as [->|Hcpu].
  - simpl in H.
    destruct (members !! "suggested_cpus") as [cpus|] eqn:Hcpus; simpl in H;
      [|discriminate].
    destruct (members !! "current_cpus") as [old_cpus|] eqn:Hold; simpl in H;
      [|discriminate].
    injection H as <- <-.
    repeat (split; [first [assumption | reflexivity]|]). left. split; [reflexivity|]. eauto.
  - destruct (String.eqb_spec resource_type "mem") as [->|Hmem].
    + simpl in H.
      destruct (members !! "suggested_mem") as [mem|] eqn:Hsug; simpl in H;
        [|discriminate].
      destruct (members !! "mem") as [old_mem|] eqn:Hold; simpl in H;
        [|discriminate].
      injection H as <- <-.
      repeat (split; [first [assumption | reflexivity]|]). right. left. split; [reflexivity|]. eauto.
    + simpl in H. injection H as <- <-.
      repeat (split; [first [assumption | reflexivity]|]). right. right. auto.
Qed.

(** X11. Credentials without a colon raise [IndexError] when the password
    is read, before any request is sent: whatever Splunk would answer, the
    result is that exception. *)
Theorem credentials_without_colon_raise
    (requests_post : string -> gmap string string -> string * string -> outcome string)
    (json_loads : string -> outcome (gmap string json))
    (creds filename resource_type : string) :
  occurs ":" creds = false ->
  get_report_from_splunk requests_post json_loads creds filename resource_type
  = Throw Index_error.
Proof.
  intros Hcolon. unfold get_report_from_splunk.
  rewrite split_on_absent by exact Hcolon. reflexivity.
Qed.

Lemma credentials_without_colon_raise_witness :
  get_report_from_splunk example_post example_loads "usersecret" "cpu.csv" "cpu"
  = Throw Index_error.
Proof.
  apply (credentials_without_colon_raise example_post example_loads
           "usersecret" "cpu.csv" "cpu").
  reflexivity.
Defined.

(** X12. A line without a [result] member, after lines that gave entries,
    makes the whole loop raise [ValueError]: no report is returned, the
    entries read before and the lines after are lost. *)
Theorem line_without_result_raises
    (resource_type : string) (before : list (gmap string json)) (d : gmap string json)
    (after : list (gmap string json)) (acc middle : gmap string (gmap string json)) :
  services_to_update resource_type before acc = Return middle ->
  d !! "result" = None ->
  services_to_update resource_type (before ++ d :: after) acc
  = Throw (Value_error no_results).
Proof.
  intros Hbefore Hnone.
  rewrite (services_to_update_app resource_type before (d :: after) acc middle Hbefore).
  simpl. unfold report_entry. rewrite Hnone. reflexivity.
Qed.

Lemma line_without_result_raises_witness :
  services_to_update "cpu" ([cpu_line] ++ message_line :: [other_cpu_line]) ∅
  = Throw (Value_error no_results).
Proof.
  apply (line_without_result_raises "cpu" [cpu_line] message_line [other_cpu_line] ∅
           {[ "web norcal-devc main" := cpu_entry ]}).
  - vm_compute. reflexivity.
  - vm_compute. reflexivity.
Defined.

(** When a list gives a report, so does each of its prefixes. *)
Lemma services_to_update_prefix (resource_type : string)
    (first rest : list (gmap string json)) (acc report : gmap string (gmap string json)) :
  services_to_update resource_type (first ++ rest) acc = Return report ->
  exists middle, services_to_update resource_type first acc = Return middle.
Proof.
  revert acc. induction first as [|d first IH]; intros acc; simpl; [eauto|].
  destruct (report_entry resource_type d) as [[c serv]|]; simpl; [apply IH | discriminate].
Qed.

(** X13. The report has one entry per criteria met in the lines, and for a
    criteria met several times the entry of the last such line: a later
    line replaces the whole entry of an earlier one. *)
Theorem report_holds_last_entry_per_criteria
    (resource_type : string) (lines : list (gmap string json))
    (report : gmap string (gmap string json)) :
  services_to_update resource_type lines ∅ = Return report ->
  (forall criteria,
     is_Some (report !! criteria)
     <-> exists d serv, d ∈ lines /\ report_entry resource_type d = Return (criteria, serv))
  /\ (forall before d after criteria serv,
        lines = before ++ d :: after ->
        report_entry resource_type d = Return (criteria, serv) ->
        (forall d' serv', d' ∈ after ->
           report_entry resource_type d' <> Return (criteria, serv')) ->
        report !! criteria = Some serv).
Proof.
  intros Hloop. split.
  - intros criteria. split.
    + intros [serv Hserv].
      destruct (services_to_update_lookup resource_type lines ∅ report criteria serv
                  Hloop Hserv) as [Hempty|(d & Hin & Hd)].
      * rewrite lookup_empty in Hempty. discriminate.
      * eauto.
    + intros (d & serv & Hin & Hd).
      apply (services_to_update_has resource_type lines ∅ report d criteria serv
               Hloop Hin Hd).
  - intros before d after criteria serv -> Hd Hlast.
    destruct (services_to_update_prefix resource_type before (d :: after) ∅ report Hloop)
      as [middle Hmiddle].
    rewrite (services_to_update_app resource_type before (d :: after) ∅ middle Hmiddle)
      in Hloop.
    simpl in Hloop. rewrite Hd in Hloop. simpl in Hloop.
    rewrite (services_to_update_other resource_type after _ report criteria Hloop Hlast).
    apply lookup_insert_eq.
Qed.

Lemma report_holds_last_entry_per_criteria_witness :
  example_cpu_report !! "web norcal-devc main" = Some cpu_entry.
Proof.
  assert (H : services_to_update "cpu" [cpu_line; other_cpu_line] ∅
              = Return example_cpu_report) by (vm_compute; reflexivity).
  apply (proj2 (report_holds_last_entry_per_criteria "cpu" [cpu_line; other_cpu_line]
                  example_cpu_report H)
           [] cpu_line [other_cpu_line] "web norcal-devc main" cpu_entry).
  - reflexivity.
  - vm_compute. reflexivity.
  - intros d' serv' Hin Hd'. apply list_elem_of_singleton in Hin as ->.
    vm_compute in Hd'. discriminate.
Defined.

Lemma dom_base_entry (members : gmap string json) (service cluster instance : string)
    (owner : json) (date : string) :
  dom (base_entry members service cluster instance owner date) = common_keys.
Proof.
  unfold base_entry, common_keys. rewrite !dom_insert_L, dom_empty_L. set_solver.
Qed.

(** X14. Every entry of a report has the seven keys [service], [cluster],
    [instance], [owner], [date], [money] and [project]; an entry of a cpu
    report has [cpus] and [old_cpus] besides and no memory key, an entry of
    a memory report has [mem] and [old_mem] besides and no cpu key. *)
Theorem entries_have_the_keys_of_their_report
    (resource_type : string) (lines : list (gmap string json))
    (report : gmap string (gmap string json)) (criteria : string)
    (serv : gmap string json) :
  services_to_update resource_type lines ∅ = Return report ->
  report !! criteria = Some serv ->
  dom serv
  = common_keys
    ∪ (if String.eqb resource_type "cpu" then cpu_keys else ∅)
    ∪ (if String.eqb resource_type "mem" then mem_keys else ∅).
Proof.
  intros Hloop Hserv.
  destruct (services_to_update_lookup resource_type lines ∅ report criteria serv
              Hloop Hserv) as [Hempty|(d & _ & Hd)].
  { rewrite lookup_empty in Hempty. discriminate. }
  apply report_entry_inv in Hd
    as (members & service & cluster & instance & owner & time & date & _ & _ & _ & _
        & _ & _ & _ & _ & Hkind).
  destruct Hkind as [(-> & cpus & old_cpus & _ & _ & ->)
                    |[(-> & mem & old_mem & _ & _ & ->)|(Hcpu & Hmem & ->)]].
  - rewrite !dom_insert_L, dom_base_entry. simpl. unfold cpu_keys. set_solver.
  - rewrite !dom_insert_L, dom_base_entry. simpl. unfold mem_keys. set_solver.
  - rewrite dom_base_entry.
    apply String.eqb_neq in Hcpu, Hmem. rewrite Hcpu, Hmem. set_solver.
Qed.

Lemma entries_have_the_keys_of_their_report_witness :
  dom cpu_entry
  = common_keys
    ∪ (if String.eqb "cpu" "cpu" then cpu_keys else ∅)
    ∪ (if String.eqb "cpu" "mem" then mem_keys else ∅).
Proof.
  apply (entries_have_the_keys_of_their_report "cpu" [cpu_line; other_cpu_line]
           example_cpu_report "web norcal-devc main" cpu_entry).
  - vm_compute. reflexivity.
  - vm_compute. reflexivity.
Defined.

(** X15. The [service], [cluster] and [instance] of an entry are the first
    three fields of its criteria, cut at every single space; joined with the
    fields that follow, by spaces, they give the criteria back. *)
Theorem entry_names_come_from_the_criteria
    (resource_type : string) (lines : list (gmap string json))
    (report : gmap string (gmap string json)) (criteria : string)
    (serv : gmap string json) :
  services_to_update resource_type lines ∅ = Return report ->
  report !! criteria = Some serv ->
  exists service cluster instance others,
    split_on " " criteria = service :: cluster :: instance :: others
    /\ serv !! "service" = Some (JStr service)
    /\ serv !! "cluster" = Some (JStr cluster)
    /\ serv !! "instance" = Some (JStr instance)
    /\ criteria = join " " (service :: cluster :: instance :: others).
Proof.
  intros Hloop Hserv.
  destruct (services_to_update_lookup resource_type lines ∅ report criteria serv
              Hloop Hserv) as [Hempty|(d & _ & Hd)].
  { rewrite lookup_empty in Hempty. discriminate. }
  apply report_entry_inv in Hd
    as (members & service & cluster & instance & owner & time & date & _ & _ & H0 & H1
        & H2 & _ & _ & _ & Hkind).
  pose proof (join_split_on " " criteria) as Hjoin.
  destruct (split_on " " criteria) as [|p0 [|p1 [|p2 others]]]; try discriminate.
  injection H0 as ->. injection H1 as ->. injection H2 as ->.
  exists service, cluster, instance, others.
  split; [reflexivity|].
  assert (Hbase : forall key value,
             base_entry members service cluster instance owner date !! key = Some value ->
             key <> "cpus" -> key <> "old_cpus" -> key <> "mem" -> key <> "old_mem" ->
             serv !! key = Some value).
  { intros key value Hkey ? ? ? ?.
    destruct Hkind as [(_ & cpus & old_cpus & _ & _ & ->)
                      |[(_ & mem & old_mem & _ & _ & ->)|(_ & _ & ->)]];
      rewrite ?lookup_insert_ne by done; exact Hkey. }
  repeat split; [apply Hbase; try done .. | by rewrite <- Hjoin];
    unfold base_entry; by rewrite !lookup_insert_ne, ?lookup_insert_eq by done.
Qed.

Lemma entry_names_come_from_the_criteria_witness :
  exists service cluster instance others,
    split_on " " "web norcal-devc main" = service :: cluster :: instance :: others
    /\ cpu_entry !! "service" = Some (JStr service)
    /\ cpu_entry !! "cluster" = Some (JStr cluster)
    /\ cpu_entry !! "instance" = Some (JStr instance)
    /\ "web norcal-devc main" = join " " (service :: cluster :: instance :: others).
Proof.
  apply (entry_names_come_from_the_criteria "cpu" [cpu_line; other_cpu_line]
           example_cpu_report "web norcal-devc main" cpu_entry).
  - vm_compute. reflexivity.
  - vm_compute. reflexivity.
Defined.

End SplunkReports.

(** ** The run of the rightsizer *)

Module RightsizerRun.

Import Rightsizer Reports SplunkReports.

Section Run.

Variable requests_post : string -> gmap string string -> string * string -> outcome string.
Variable json_loads : string -> outcome (gmap string json).
Variable import_jira : outcome unit.
Variable bulk_branch : gmap string (gmap string json) -> option string -> outcome unit.

(** A report that was returned was built by the loop from some lines. *)
Lemma get_report_from_splunk_lines (creds filename resource_type : string)
    (report : gmap string (gmap string json)) :
  get_report_from_splunk requests_post json_loads creds filename resource_type
  = Return report ->
  exists lines, services_to_update resource_type lines ∅ = Return report.
Proof.
  unfold get_report_from_splunk. intros H.
  do 4 entry_step H. eauto.
Qed.

(** An entry of a memory report has no cpu key. *)
Lemma memory_report_has_no_cpus (creds filename : string)
    (report : gmap string (gmap string json)) (criteria : string)
    (serv : gmap string json) :
  get_report_from_splunk requests_post json_loads creds filename "mem" = Return report ->
  report !! criteria = Some serv ->
  serv !! "cpus" = None /\ serv !! "old_cpus" = None.
Proof.
  intros Hreport Hserv.
  apply get_report_from_splunk_lines in Hreport as [lines Hloop].
  destruct (services_to_update_lookup "mem" lines ∅ report criteria serv Hloop Hserv)
    as [Hempty|(d & _ & Hd)].
  { rewrite lookup_empty in Hempty. discriminate. }
  apply report_entry_inv in Hd
    as (members & service & cluster & instance & owner & time & date & _ & _ & _ & _
        & _ & _ & _ & _ & Hkind).
  destruct Hkind as [(Hcpu & _)|[(_ & mem & old_mem & _ & _ & ->)|(_ & Hmem & _)]];
    [discriminate | | congruence].
  unfold base_entry.
  split; by rewrite !lookup_insert_ne, lookup_empty by done.
Qed.

(** X16. With both reports given, the combined report is the cpu report
    updated with the memory report: an instance of the memory report gets
    the memory entry as a whole, which has no [cpus] and no [old_cpus], also
    when the cpu report had a suggestion for it; the other instances keep
    their cpu entry. *)
Theorem memory_report_replaces_cpu_entries
    (args : Args) (combined : gmap string (gmap string json)) :
  given (cpu_report_csv args) = true ->
  given (mem_report_csv args) = true ->
  combined_report requests_post json_loads import_jira args = Return combined ->
  exists cpu_report mem_report,
    get_report_from_splunk requests_post json_loads (splunk_creds args)
      (default "" (cpu_report_csv args)) "cpu" = Return cpu_report
    /\ get_report_from_splunk requests_post json_loads (splunk_creds args)
         (default "" (mem_report_csv args)) "mem" = Return mem_report
    /\ (forall criteria serv,
          mem_report !! criteria = Some serv ->
          combined !! criteria = Some serv
          /\ serv !! "cpus" = None /\ serv !! "old_cpus" = None)
    /\ (forall criteria,
          mem_report !! criteria = None ->
          combined !! criteria = cpu_report !! criteria).
Proof.
  intros Hcpu Hmem. unfold combined_report. rewrite Hcpu, Hmem. simpl.
  intros H. entry_step H.
  destruct (get_report_from_splunk requests_post json_loads (splunk_creds args)
              (default "" (cpu_report_csv args)) "cpu") as [cpu_report|] eqn:Hc;
    simpl in H; [|discriminate].
  destruct (get_report_from_splunk requests_post json_loads (splunk_creds args)
              (default "" (mem_report_csv args)) "mem") as [mem_report|] eqn:Hm;
    simpl in H; [|discriminate].
  injection H as <-. exists cpu_report, mem_report.
  split; [reflexivity|]. split; [reflexivity|]. split.
  - intros criteria serv Hserv. split.
    + apply lookup_union_Some_l. exact Hserv.
    + apply (memory_report_has_no_cpus _ _ _ _ _ Hm Hserv).
  - intros criteria Hnone.
    rewrite lookup_union_r by exact Hnone.
    rewrite lookup_union_l by apply lookup_empty. reflexivity.
Qed.

(** X17. The arguments are checked before anything is fetched, whatever
    Splunk would answer. With [-t] and no JIRA credentials [main] raises
    [ValueError]. With [-t] and credentials the JIRA client is imported
    next, and an exception of the import leaves [main]. Otherwise, with
    neither a cpu nor a memory report, [main] raises [ValueError] too. An
    empty string counts as not given. *)
Theorem arguments_are_checked_first (args : Args) :
  (ticket args = true -> given (jira_creds args) = false ->
   main requests_post json_loads import_jira bulk_branch args
   = Throw (Value_error "No JIRA creds specified"))
  /\ (forall e,
      ticket args = true -> given (jira_creds args) = true ->
      import_jira = Throw e ->
      main requests_post json_loads import_jira bulk_branch args = Throw e)
  /\ (ticket args = false
      \/ (given (jira_creds args) = true /\ import_jira = Return tt) ->
      given (cpu_report_csv args) = false -> given (mem_report_csv args) = false ->
      main requests_post json_loads import_jira bulk_branch args
      = Throw (Value_error "Need at least a CPU or memory report to work on")).
Proof.
  unfold main, combined_report. split; [|split].
  - intros -> ->. reflexivity.
  - intros e -> -> ->. reflexivity.
  - intros Hticket -> ->.
    destruct Hticket as [->|[-> ->]]; [reflexivity|].
    destruct (ticket args); reflexivity.
Qed.

(** A run with [-t], credentials and no report: on a host without the JIRA
    client the import fails first, on a host with it the missing report is
    what is raised. *)
Example import_fails_before_the_reports_are_checked :
  main example_post example_loads failing_import example_bulk ticket_args
  = Throw (Import_error "jira")
  /\ main example_post example_loads example_import example_bulk ticket_args
     = Throw (Value_error "Need at least a CPU or memory report to work on").
Proof. split; reflexivity. Qed.

(** X18. Without [-b] the run cannot end normally: once the reports are
    combined, [individual_rightsize] raises [NameError] on [cpu_report], and
    before that any exception of the checks or of the reports escapes. *)
Theorem individual_mode_never_returns (args : Args) :
  bulk args = false ->
  thrown (main requests_post json_loads import_jira bulk_branch args) = true
  /\ (forall combined,
        combined_report requests_post json_loads import_jira args = Return combined ->
        main requests_post json_loads import_jira bulk_branch args
        = Throw (Name_error "cpu_report")).
Proof.
  intros Hbulk. unfold main. rewrite Hbulk.
  destruct (combined_report requests_post json_loads import_jira args); simpl.
  - split; [reflexivity | reflexivity].
  - split; [reflexivity | discriminate].
Qed.

End Run.

Lemma memory_report_replaces_cpu_entries_witness :
  exists cpu_report mem_report,
    get_report_from_splunk example_post example_loads (splunk_creds example_args)
      (default "" (cpu_report_csv example_args)) "cpu" = Return cpu_report
    /\ get_report_from_splunk example_post example_loads (splunk_creds example_args)
         (default "" (mem_report_csv example_args)) "mem" = Return mem_report
    /\ (forall criteria serv,
          mem_report !! criteria = Some serv ->
          example_combined !! criteria = Some serv
          /\ serv !! "cpus" = None /\ serv !! "old_cpus" = None)
    /\ (forall criteria,
          mem_report !! criteria = None ->
          example_combined !! criteria = cpu_report !! criteria).
Proof.
  apply (memory_report_replaces_cpu_entries example_post example_loads
           example_import example_args example_combined).
  - reflexivity.
  - reflexivity.
  - vm_compute. reflexivity.
Defined.

Lemma individual_mode_never_returns_witness :
  thrown (main example_post example_loads example_import example_bulk individual_args) = true
  /\ (forall combined,
        combined_report example_post example_loads example_import individual_args = Return combined ->
        main example_post example_loads example_import example_bulk individual_args
        = Throw (Name_error "cpu_report")).
Proof.
  apply (individual_mode_never_returns example_post example_loads example_import
           example_bulk individual_args).
  reflexivity.
Defined.

End RightsizerRun.

(** ** The reviewers of a change *)

Module Reviewers.

Import Rightsizer Reports.

(** The first piece of a split has no separator in it. *)
Lemma split_on_head (sep : ascii) (s piece : string) (pieces : list string) :
  split_on sep s = piece :: pieces -> occurs sep piece = false.
Proof.
  revert piece pieces. induction s as [|c s IH]; intros piece pieces; simpl.
  - intros [= <- _]. reflexivity.
  - destruct (Ascii.eqb c sep) eqn:Hc.
    + intros [= <- _]. reflexivity.
    + destruct (split_on sep s) as [|p ps]; intros [= <- _]; simpl; rewrite Hc.
      * reflexivity.
      * apply (IH p ps eq_refl).
Qed.

Lemma local_part_has_no_at (email : string) : occurs "@" (local_part email) = false.
Proof.
  unfold local_part.
  destruct (split_on "@" email) as [|piece pieces] eqn:Hsplit; [reflexivity|].
  simpl. apply (split_on_head "@" email piece pieces Hsplit).
Qed.

Lemma size_add (author : string) (recent : gset string) :
  (size ({[ author ]} ∪ recent) <= S (size recent))%nat.
Proof.
  rewrite size_union_alt, size_singleton.
  assert (Hsub : recent ∖ {[ author ]} ⊆ recent) by set_solver.
  apply subseteq_size in Hsub. lia.
Qed.

(** Below three authors on entry, the loop ends with at most three. *)
Lemma recent_authors_loop_size (authors : list string) (recent : gset string) :
  (size recent < 3)%nat -> (size (recent_authors_loop authors recent) <= 3)%nat.
Proof.
  revert recent. induction authors as [|author authors IH]; intros recent Hsize; simpl.
  - lia.
  - pose proof (size_add author recent). case_bool_decide; [lia|].
    apply IH. lia.
Qed.

Lemma recent_authors_loop_keeps (authors : list string) (recent : gset string) :
  recent ⊆ recent_authors_loop authors recent.
Proof.
  revert recent. induction authors as [|author authors IH]; intros recent; simpl.
  - reflexivity.
  - case_bool_decide; [set_solver|].
    transitivity ({[ author ]} ∪ recent); [set_solver | apply IH].
Qed.

Lemma recent_authors_loop_subseteq (authors : list string) (recent : gset string) :
  recent_authors_loop authors recent ⊆ recent ∪ list_to_set authors.
Proof.
  revert recent. induction authors as [|author authors IH]; intros recent; simpl.
  - set_solver.
  - case_bool_decide; [set_solver|].
    transitivity ({[ author ]} ∪ recent ∪ list_to_set authors); [apply IH | set_solver].
Qed.

(** The loop stops with three authors or has seen them all. *)
Lemma recent_authors_loop_three_or_all (authors : list string) (recent : gset string) :
  (3 <= size (recent_authors_loop authors recent))%nat
  \/ recent_authors_loop authors recent = recent ∪ list_to_set authors.
Proof.
  revert recent. induction authors as [|author authors IH]; intros recent; simpl.
  - right. set_solver.
  - case_bool_decide; [by left|].
    destruct (IH ({[ author ]} ∪ recent)) as [Hthree|Hall]; [by left|].
    right. rewrite Hall. set_solver.
Qed.

(** X19. [get_reviewers] names at most three reviewers; each is what stands
    before the first [@] of an address of the log, and so holds no [@]; the
    author of the most recent commit is always among them. *)
Theorem reviewers_are_recent_authors (log_lines : list string) :
  (size (get_reviewers log_lines) <= 3)%nat
  /\ (forall reviewer,
        reviewer ∈ get_reviewers log_lines ->
        occurs "@" reviewer = false
        /\ exists line, line ∈ log_lines /\ reviewer = local_part line)
  /\ (forall line older, log_lines = line :: older ->
        local_part line ∈ get_reviewers log_lines).
Proof.
  unfold get_reviewers. split; [|split].
  - apply recent_authors_loop_size. rewrite size_empty. lia.
  - intros reviewer Hin.
    apply recent_authors_loop_subseteq in Hin.
    rewrite elem_of_union, elem_of_list_to_set, list_elem_of_fmap in Hin.
    destruct Hin as [Hempty|(line & -> & Hline)]; [set_solver|].
    split; [apply local_part_has_no_at | eauto].
  - intros line older ->. simpl. case_bool_decide; [set_solver|].
    apply recent_authors_loop_keeps. set_solver.
Qed.

(** X20. When the log has at most three distinct authors, all of them are
    reviewers. *)
Theorem few_authors_all_review (log_lines : list string) :
  (size (list_to_set (map local_part log_lines) : gset string) <= 3)%nat ->
  get_reviewers log_lines = list_to_set (map local_part log_lines).
Proof.
  intros Hfew.
  change (recent_authors_loop (map local_part log_lines) ∅
          = list_to_set (map local_part log_lines)).
  pose proof (recent_authors_loop_subseteq (map local_part log_lines) ∅) as Hsub.
  rewrite (left_id_L ∅ (∪)) in Hsub.
  destruct (recent_authors_loop_three_or_all (map local_part log_lines) ∅)
    as [Hthree|Hall].
  - apply set_subseteq_size_eq; [exact Hsub | lia].
  - rewrite Hall. apply (left_id_L ∅ (∪)).
Qed.

Lemma few_authors_all_review_witness :
  get_reviewers ["ann@yelp.com"; "bob@yelp.com"; "ann@example.org"]
  = list_to_set (map local_part ["ann@yelp.com"; "bob@yelp.com"; "ann@example.org"]).
Proof.
  apply (few_authors_all_review ["ann@yelp.com"; "bob@yelp.com"; "ann@example.org"]).
  vm_compute. lia.
Defined.

(** X21. When the log has three distinct authors or more, exactly three are
    reviewers. *)
Theorem many_authors_three_review (log_lines : list string) :
  (3 <= size (list_to_set (map local_part log_lines) : gset string))%nat ->
  size (get_reviewers log_lines) = 3%nat.
Proof.
  intros Hmany.
  change (size (recent_authors_loop (map local_part log_lines) ∅) = 3%nat).
  pose proof (recent_authors_loop_size (map local_part log_lines) ∅) as Hle.
  rewrite size_empty in Hle. specialize (Hle ltac:(lia)).
  destruct (recent_authors_loop_three_or_all (map local_part log_lines) ∅)
    as [Hthree|Hall]; [lia|].
  rewrite (left_id_L ∅ (∪)) in Hall. rewrite Hall in *. lia.
Qed.

Lemma many_authors_three_review_witness :
  size (get_reviewers ["ann@yelp.com"; "bob@yelp.com"; "cat@yelp.com"; "dan@yelp.com"])
  = 3%nat.
Proof.
  apply (many_authors_three_review
           ["ann@yelp.com"; "bob@yelp.com"; "cat@yelp.com"; "dan@yelp.com"]).
  vm_compute. lia.
Defined.

End Reviewers.
